(** * RTC time setter: the post-upload hook [scripts/set_rtc_time.py]

    The script registers one callback, [after_upload], that a build tool runs
    after flashing a device.  The callback reads the wall clock once, waits
    for the device to reboot, opens the serial port, sends one [SETTIME:]
    line, logs one optional reply line and closes the port; every error of
    class [Exception] raised on the way is logged and swallowed.

    The development has three layers:
    - [Py]: the pieces of the Python runtime the script calls ([str], [int],
      UTF-8 [encode]/[decode], [strip], [gmtime], [strftime]);
    - [Host]: the machine the script runs on: wall clock, console, one serial
      port with a timed input stream, and fault injection; programs are
      functions in a state-and-exception monad over it;
    - the script itself, followed by the theorems about it. *)

From Stdlib Require Import ZArith QArith List Ascii String Strings.Byte.
From Stdlib Require Import Decimal DecimalString Lia Lqa Bool.
From Stdlib Require DecimalZ DecimalPos.
From stdpp Require Import gmap strings.
Import ListNotations.

#[local] Open Scope Z_scope.

(** ** The Python runtime *)

Module Py.

(** A [str] is a sequence of Unicode code points, a [bytes] a sequence of
    octets. *)
Abbreviation str := (list N).
Abbreviation bytes := (list byte).

(** A source literal, which in this script is always ASCII. *)
Definition lit (s : string) : str := map N_of_ascii (list_ascii_of_string s).

(** The line feed, written [\n] in the source. *)
Definition LF : str := [10%N].

(** [str(z)] for an [int]: sign and decimal digits. *)
Definition str_int (z : Z) : str := lit (NilZero.string_of_int (Z.to_int z)).

(** [int(x)] for a [float]: truncation towards zero. *)
Definition int (x : Q) : Z := Z.quot (Qnum x) (Z.pos (Qden x)).

(** *** UTF-8 *)

Definition octet (n : N) : byte :=
  match Byte.of_N n with Some b => b | None => x00 end.

Definition is_surrogate (c : N) : bool := ((0xD800 <=? c) && (c <=? 0xDFFF))%N.

(** One code point to its UTF-8 octets; surrogates and values beyond
    U+10FFFF have none. *)
Definition encode_char (c : N) : option bytes :=
  (if c <? 0x80 then Some [octet c]
   else if c <? 0x800 then
     Some [octet (0xC0 + c / 0x40); octet (0x80 + c mod 0x40)]
   else if c <? 0x10000 then
     if is_surrogate c then None
     else Some [octet (0xE0 + c / 0x1000);
                octet (0x80 + (c / 0x40) mod 0x40);
                octet (0x80 + c mod 0x40)]
   else if c <? 0x110000 then
     Some [octet (0xF0 + c / 0x40000);
           octet (0x80 + (c / 0x1000) mod 0x40);
           octet (0x80 + (c / 0x40) mod 0x40);
           octet (0x80 + c mod 0x40)]
   else None)%N.

(** [s.encode()]: [None] stands for [UnicodeEncodeError]. *)
Fixpoint encode (s : str) : option bytes :=
  match s with
  | [] => Some []
  | c :: s' =>
      match encode_char c, encode s' with
      | Some bs, Some bs' => Some (bs ++ bs')
      | _, _ => None
      end
  end.

Definition is_cont (b : byte) : bool :=
  ((0x80 <=? Byte.to_N b) && (Byte.to_N b <=? 0xBF))%N.

Definition cont (b : byte) : N := (Byte.to_N b - 0x80)%N.

(** [b.decode()], strict UTF-8: overlong forms, surrogates, stray or missing
    continuation octets and values beyond U+10FFFF are rejected; [None]
    stands for [UnicodeDecodeError]. *)
Fixpoint decode (bs : bytes) : option str :=
  match bs with
  | [] => Some []
  | b0 :: r0 =>
      let n0 := Byte.to_N b0 in
      if (n0 <? 0x80)%N then option_map (cons n0) (decode r0)
      else if (n0 <? 0xC2)%N then None
      else if (n0 <? 0xE0)%N then
        match r0 with
        | b1 :: r1 =>
            if is_cont b1
            then option_map (cons ((n0 - 0xC0) * 0x40 + cont b1)%N) (decode r1)
            else None
        | _ => None
        end
      else if (n0 <? 0xF0)%N then
        match r0 with
        | b1 :: b2 :: r2 =>
            let c := ((n0 - 0xE0) * 0x1000 + cont b1 * 0x40 + cont b2)%N in
            if is_cont b1 && is_cont b2 && (0x800 <=? c)%N && negb (is_surrogate c)
            then option_map (cons c) (decode r2)
            else None
        | _ => None
        end
      else if (n0 <? 0xF5)%N then
        match r0 with
        | b1 :: b2 :: b3 :: r3 =>
            let c := ((n0 - 0xF0) * 0x40000 + cont b1 * 0x1000
                      + cont b2 * 0x40 + cont b3)%N in
            if is_cont b1 && is_cont b2 && is_cont b3
               && (0x10000 <=? c)%N && (c <? 0x110000)%N
            then option_map (cons c) (decode r3)
            else None
        | _ => None
        end
      else None
  end.

(** *** Whitespace *)

(** [c.isspace()] for one code point. *)
Definition isspace (c : N) : bool :=
  (((0x09 <=? c) && (c <=? 0x0D)) || ((0x1C <=? c) && (c <=? 0x20))
   || (c =? 0x85) || (c =? 0xA0) || (c =? 0x1680)
   || ((0x2000 <=? c) && (c <=? 0x200A))
   || (c =? 0x2028) || (c =? 0x2029) || (c =? 0x202F) || (c =? 0x205F)
   || (c =? 0x3000))%N.

Fixpoint lstrip (s : str) : str :=
  match s with
  | c :: s' => if isspace c then lstrip s' else s
  | [] => []
  end.

Definition rstrip (s : str) : str := rev (lstrip (rev s)).

(** [s.strip()] *)
Definition strip (s : str) : str := rstrip (lstrip s).

(** *** Calendar time *)

Record struct_time := {
  tm_year : Z; tm_mon : Z; tm_mday : Z;
  tm_hour : Z; tm_min : Z; tm_sec : Z
}.

(** [time.gmtime(secs)]: the proleptic Gregorian date and the time of day of
    an epoch count, by the era/day-of-era decomposition (an era is 400
    years, 146097 days, and starts on a 1 March). *)
Definition gmtime (secs : Z) : struct_time :=
  let days := secs / 86400 in
  let rem := secs mod 86400 in
  let z := days + 719468 in
  let era := z / 146097 in
  let doe := z - era * 146097 in
  let yoe := (doe - doe / 1460 + doe / 36524 - doe / 146096) / 365 in
  let doy := doe - (365 * yoe + yoe / 4 - yoe / 100) in
  let mp := (5 * doy + 2) / 153 in
  let d := doy - (153 * mp + 2) / 5 + 1 in
  let m := if mp <? 10 then mp + 3 else mp - 9 in
  let y := yoe + era * 400 + (if m <=? 2 then 1 else 0) in
  {| tm_year := y; tm_mon := m; tm_mday := d;
     tm_hour := rem / 3600; tm_min := (rem mod 3600) / 60; tm_sec := rem mod 60 |}.

(** A field padded with zeros on the left to [width] characters. *)
Definition zfill (width : nat) (s : str) : str :=
  repeat 48%N (width - length s) ++ s.

(** [time.strftime(fmt, tm)] for the directives the script uses; any other
    character of the format, a stray [%] included, is copied. *)
Fixpoint strftime (fmt : list ascii) (tm : struct_time) : str :=
  match fmt with
  | [] => []
  | "%"%char :: d :: fmt' =>
      let field (w : nat) (v : Z) := zfill w (str_int v) ++ strftime fmt' tm in
      if Ascii.eqb d "Y" then field 4%nat (tm_year tm)
      else if Ascii.eqb d "m" then field 2%nat (tm_mon tm)
      else if Ascii.eqb d "d" then field 2%nat (tm_mday tm)
      else if Ascii.eqb d "H" then field 2%nat (tm_hour tm)
      else if Ascii.eqb d "M" then field 2%nat (tm_min tm)
      else if Ascii.eqb d "S" then field 2%nat (tm_sec tm)
      else N_of_ascii "%" :: N_of_ascii d :: strftime fmt' tm
  | c :: fmt' => N_of_ascii c :: strftime fmt' tm
  end.

(** *** Exceptions *)

(** The classes that can reach the script.  The last two derive from
    [BaseException] only. *)
Inductive exc_class :=
| SerialException | SerialTimeoutException | PortNotOpenError
| OSError | PermissionError | FileNotFoundError | ValueError
| UnicodeEncodeError | UnicodeDecodeError
| KeyboardInterrupt | SystemExit.

(** [isinstance(e, Exception)] *)
Definition is_Exception (c : exc_class) : bool :=
  match c with
  | KeyboardInterrupt | SystemExit => false
  | _ => true
  end.

(** A raised object: its class and [str(e)], the text an f-string shows. *)
Record exc := { exc_class_of : exc_class; exc_str : str }.

End Py.

(** ** The host: clock, console and serial port *)

Module Host.
Import Py.

(** What the script does to the outside world, in the order it does it.  An
    event is recorded when the call is made, whether or not it then raises. *)
Inductive event :=
| EvTime                                         (* time.time() *)
| EvPrint (text : str)                           (* print(text) *)
| EvSleep (secs : Q)                             (* time.sleep(secs) *)
| EvOpen (port : str) (baudrate : Z) (timeout : Q) (* serial.Serial(...) *)
| EvWrite (data : bytes)                         (* ser.write(data) *)
| EvFlush                                        (* ser.flush() *)
| EvInWaiting                                    (* ser.in_waiting *)
| EvReadline                                     (* ser.readline() *)
| EvClose.                                       (* ser.close() *)

(** One run's surroundings.  Times are seconds; [w_rx] counts them from the
    invocation of the hook. *)
Record world := {
  (** the wall clock, as [time.time()] shows it, when the hook is invoked *)
  w_time : Q;
  (** fault injection: the exception, if any, a call raises *)
  w_fault : event -> option exc;
  (** what the device sends once the port is open: each octet with the
      moment it reaches the driver's input buffer *)
  w_rx : list (Q * byte);
  (** the text of the [UnicodeDecodeError] the runtime builds for an
      undecodable line *)
  w_decode_msg : bytes -> str;
  (** the text of the [UnicodeEncodeError] for an unencodable string *)
  w_encode_msg : str -> str
}.

Record state := {
  st_elapsed : Q;            (* seconds since the invocation *)
  st_trace : list event;     (* events so far, oldest first *)
  st_is_open : bool;         (* the port handle is open *)
  st_rx : list (Q * byte);   (* device output not yet read *)
  st_tx : bytes              (* octets handed to the port *)
}.

Definition initial : state :=
  {| st_elapsed := 0; st_trace := []; st_is_open := false;
     st_rx := []; st_tx := [] |}.

Definition record (ev : event) (st : state) : state :=
  {| st_elapsed := st_elapsed st; st_trace := st_trace st ++ [ev];
     st_is_open := st_is_open st; st_rx := st_rx st; st_tx := st_tx st |}.

Definition advance (secs : Q) (st : state) : state :=
  {| st_elapsed := st_elapsed st + secs; st_trace := st_trace st;
     st_is_open := st_is_open st; st_rx := st_rx st; st_tx := st_tx st |}.

(** A call either returns a value or raises; the state it leaves behind is
    kept in both cases. *)
Inductive outcome (A : Type) :=
| Return (a : A)
| Raise (e : exc).
Arguments Return {A} a.
Arguments Raise {A} e.

Definition M (A : Type) : Type := state -> outcome A * state.

Definition ret {A} (a : A) : M A := fun st => (Return a, st).

Definition raise {A} (e : exc) : M A := fun st => (Raise e, st).

Definition bind {A B} (m : M A) (k : A -> M B) : M B :=
  fun st =>
    match m st with
    | (Return a, st') => k a st'
    | (Raise e, st') => (Raise e, st')
    end.

(** [try: body / except Exception as e: handler]: only instances of
    [Exception] are caught, anything else keeps propagating. *)
Definition try_except_Exception {A} (body : M A) (handler : exc -> M A) : M A :=
  fun st =>
    match body st with
    | (Return a, st') => (Return a, st')
    | (Raise e, st') =>
        if is_Exception (exc_class_of e) then handler e st' else (Raise e, st')
    end.

Declare Scope prog_scope.
Delimit Scope prog_scope with prog.
Bind Scope prog_scope with M.
Notation "'let*' x ':=' m 'in' k" := (bind m (fun x => k))
  (at level 10, x name, m at level 100, k at level 200) : prog_scope.
Notation "m ';;;' k" := (bind m (fun _ => k))
  (at level 100, k at level 200, right associativity) : prog_scope.

(** An optional result of the runtime, raised as the given class when absent. *)
Definition lift_option {A} (o : option A) (c : exc_class) (msg : str) : M A :=
  match o with
  | Some a => ret a
  | None => raise {| exc_class_of := c; exc_str := msg |}
  end.

Section Calls.
Variable w : world.

(** A call that touches the outside world: record it, then raise what the
    world injects or carry on. *)
Definition call {A} (ev : event) (k : M A) : M A :=
  fun st =>
    let st' := record ev st in
    match w_fault w ev with
    | Some e => (Raise e, st')
    | None => k st'
    end.

(** [time.time()] and [print] are taken not to fail. *)
Definition time_time : M Q :=
  fun st => (Return (w_time w + st_elapsed st)%Q, record EvTime st).

Definition print (text : str) : M unit :=
  fun st => (Return tt, record (EvPrint text) st).

Definition time_sleep (secs : Q) : M unit :=
  call (EvSleep secs) (fun st => (Return tt, advance secs st)).

(** The object [serial.Serial(...)] returns. *)
Record Serial := { ser_port : str; ser_baudrate : Z; ser_timeout : Q }.

(** Opening the port; from then on the device's output accumulates. *)
Definition serial_Serial (port : str) (baudrate : Z) (timeout : Q) : M Serial :=
  call (EvOpen port baudrate timeout)
    (fun st =>
       (Return {| ser_port := port; ser_baudrate := baudrate;
                  ser_timeout := timeout |},
        {| st_elapsed := st_elapsed st; st_trace := st_trace st;
           st_is_open := true; st_rx := w_rx w; st_tx := st_tx st |})).

Definition not_open : exc :=
  {| exc_class_of := PortNotOpenError;
     exc_str := lit "Attempting to use a port that is not open" |}.

(** The body of a port method: it needs an open port. *)
Definition on_open_port {A} (k : M A) : M A :=
  fun st => if st_is_open st then k st else (Raise not_open, st).

Definition ser_write (ser : Serial) (data : bytes) : M unit :=
  call (EvWrite data)
    (on_open_port (fun st =>
       (Return tt,
        {| st_elapsed := st_elapsed st; st_trace := st_trace st;
           st_is_open := true; st_rx := st_rx st;
           st_tx := st_tx st ++ data |}))).

Definition ser_flush (ser : Serial) : M unit :=
  call EvFlush (on_open_port (ret tt)).

(** Octets at the head of the stream that have arrived by [now]. *)
Fixpoint buffered (now : Q) (rx : list (Q * byte)) : N :=
  match rx with
  | (t, _) :: rx' => if Qle_bool t now then N.succ (buffered now rx') else 0%N
  | [] => 0%N
  end.

(** [ser.in_waiting]: the number of octets in the input buffer now. *)
Definition ser_in_waiting (ser : Serial) : M N :=
  call EvInWaiting
    (on_open_port (fun st => (Return (buffered (st_elapsed st) (st_rx st)), st))).

(** The read loop of [readline]: one octet at a time, each awaited for at
    most [timeout], until a line feed has been taken or an octet fails to
    arrive in time.  Returns the line, the time afterwards and the rest of
    the stream. *)
Fixpoint read_line (timeout now : Q) (rx : list (Q * byte))
  : bytes * Q * list (Q * byte) :=
  match rx with
  | [] => ([], (now + timeout)%Q, [])
  | (t, b) :: rx' =>
      if Qle_bool t (now + timeout) then
        let now' := if Qle_bool t now then now else t in
        if Byte.eqb b x0a then ([b], now', rx')
        else
          let '(line, fin, rest) := read_line timeout now' rx' in
          (b :: line, fin, rest)
      else ([], (now + timeout)%Q, rx)
  end.

Definition ser_readline (ser : Serial) : M bytes :=
  call EvReadline
    (on_open_port (fun st =>
       let '(line, fin, rest) :=
         read_line (ser_timeout ser) (st_elapsed st) (st_rx st) in
       (Return line,
        {| st_elapsed := fin; st_trace := st_trace st;
           st_is_open := true; st_rx := rest; st_tx := st_tx st |}))).

(** [ser.close()]; closing a closed port is allowed and does nothing. *)
Definition ser_close (ser : Serial) : M unit :=
  call EvClose
    (fun st =>
       (Return tt,
        {| st_elapsed := st_elapsed st; st_trace := st_trace st;
           st_is_open := false; st_rx := st_rx st; st_tx := st_tx st |})).

(** [s.encode()] and [b.decode()] as calls that may raise. *)
Definition str_encode (s : str) : M bytes :=
  lift_option (encode s) UnicodeEncodeError (w_encode_msg w s).

Definition bytes_decode (b : bytes) : M str :=
  lift_option (decode b) UnicodeDecodeError (w_decode_msg w b).

End Calls.

End Host.

(** ** The script *)

Import Py Host.
#[local] Open Scope prog_scope.

(** The arguments [source] and [target] the build tool passes: lists of
    file nodes, which the hook never looks at. *)
Definition nodes := list str.

(** The format the hook passes to [strftime]. *)
Definition time_format : list ascii :=
  list_ascii_of_string "%Y-%m-%d %H:%M:%S UTC".

(** [def after_upload(source, target, env)] *)
Definition after_upload (w : world) (source target : nodes)
    (env : gmap string str) : M unit :=
  let upload_port := env !! "UPLOAD_PORT"%string in
  match upload_port with
  | None | Some [] => ret tt
  | Some upload_port =>
      let* now := time_time w in
      let epoch := int now in
      print (LF ++ lit "[RTC] Setting to system time: "
                ++ strftime time_format (gmtime epoch)) ;;;
      try_except_Exception
        (time_sleep w 3 ;;;
         let* ser := serial_Serial w upload_port 115200 2 in
         time_sleep w 1 ;;;
         let* data := str_encode w (lit "SETTIME:" ++ str_int epoch ++ LF) in
         ser_write w ser data ;;;
         ser_flush w ser ;;;
         time_sleep w (1 # 2) ;;;
         let* n := ser_in_waiting w ser in
         (if (0 <? n)%N then
            let* line := ser_readline w ser in
            let* text := bytes_decode w line in
            print (lit "[RTC] " ++ strip text)
          else ret tt) ;;;
         ser_close w ser ;;;
         print (lit "[RTC] Done" ++ LF))
        (fun e => print (lit "[RTC] Failed: " ++ exc_str e ++ LF))
  end.

(** One invocation of the hook by the build tool, from a fresh state. *)
Definition run (w : world) (env : gmap string str) : outcome unit * state :=
  after_upload w [] [] env initial.

Definition trace_of (w : world) (env : gmap string str) : list event :=
  st_trace (snd (run w env)).

(** ** Vocabulary of the statements *)

(** The epoch the hook captures: the wall clock at invocation, truncated. *)
Definition epoch_of (w : world) : Z := int (w_time w).

(** The lines the hook can print. *)
Definition setting_line (epoch : Z) : str :=
  LF ++ lit "[RTC] Setting to system time: " ++ strftime time_format (gmtime epoch).
Definition response_line (text : str) : str := lit "[RTC] " ++ text.
Definition done_line : str := lit "[RTC] Done" ++ LF.
Definition failed_line (description : str) : str :=
  lit "[RTC] Failed: " ++ description ++ LF.

(** The command as the wire protocol words it: the ASCII text [SETTIME:],
    the decimal numeral of the epoch, one line feed. *)
Definition newline : string := String (ascii_of_nat 10) EmptyString.

Definition settime_text (epoch : Z) : string :=
  ("SETTIME:" ++ NilZero.string_of_int (Z.to_int epoch) ++ newline)%string.

Definition settime_bytes (epoch : Z) : bytes :=
  list_byte_of_string (settime_text epoch).

(** The texts printed, the octets written, and how often a call was made. *)
Definition printed (tr : list event) : list str :=
  flat_map (fun ev => match ev with EvPrint t => [t] | _ => [] end) tr.

Definition written (tr : list event) : list bytes :=
  flat_map (fun ev => match ev with EvWrite d => [d] | _ => [] end) tr.

Definition is_print (ev : event) : bool :=
  match ev with EvPrint _ => true | _ => false end.
Definition is_time (ev : event) : bool :=
  match ev with EvTime => true | _ => false end.
Definition is_sleep (ev : event) : bool :=
  match ev with EvSleep _ => true | _ => false end.
Definition is_open (ev : event) : bool :=
  match ev with EvOpen _ _ _ => true | _ => false end.
Definition is_write (ev : event) : bool :=
  match ev with EvWrite _ => true | _ => false end.
Definition is_in_waiting (ev : event) : bool :=
  match ev with EvInWaiting => true | _ => false end.
Definition is_readline (ev : event) : bool :=
  match ev with EvReadline => true | _ => false end.
Definition is_close (ev : event) : bool :=
  match ev with EvClose => true | _ => false end.

(** Calls on the serial port. *)
Definition is_port_call (ev : event) : bool :=
  match ev with
  | EvOpen _ _ _ | EvWrite _ | EvFlush | EvInWaiting | EvReadline | EvClose => true
  | _ => false
  end.

Definition count (p : event -> bool) (tr : list event) : nat :=
  length (List.filter p tr).

(** Text all of whose characters are below 128. *)
Definition ascii_only (s : string) : Prop :=
  Forall (fun c => (N_of_ascii c < 0x80)%N) (list_ascii_of_string s).

(** *** The calls of one run *)

(** Only pauses take time before the hook looks at the input buffer, so it
    looks 3 + 1 + 0.5 seconds after the invocation. *)
Definition check_instant : Q := 9 # 2.

(** What [ser.in_waiting] shows at that moment, and the line [ser.readline()]
    then returns. *)
Definition pending (w : world) : N := buffered check_instant (w_rx w).
Definition reply_bytes (w : world) : bytes :=
  fst (fst (read_line 2 check_instant (w_rx w))).

Definition prologue (epoch : Z) : list event :=
  [EvTime; EvPrint (setting_line epoch)].

Definition transmit (port : str) (epoch : Z) : list event :=
  [EvSleep 3; EvOpen port 115200 2; EvSleep 1; EvWrite (settime_bytes epoch);
   EvFlush; EvSleep (1 # 2); EvInWaiting].

Definition epilogue : list event := [EvClose; EvPrint done_line].

(** The ten steps in order, the reply being the text logged, if one is. *)
Definition sequence (port : str) (epoch : Z) (reply : option str) : list event :=
  prologue epoch ++ transmit port epoch
  ++ match reply with
     | Some text => [EvReadline; EvPrint (response_line text)]
     | None => []
     end
  ++ epilogue.

(** The events of the guarded block in [w] as long as no call raises: they
    end with the completion line, or with the read of a line that does not
    decode. *)
Definition calls (w : world) (port : str) : list event :=
  transmit port (epoch_of w)
  ++ (if (0 <? pending w)%N then
        EvReadline
        :: match decode (reply_bytes w) with
           | Some text => EvPrint (response_line (strip text)) :: epilogue
           | None => []
           end
      else epilogue).

(** No call among [evs] raises in [w]; printing never does. *)
Definition quiet (w : world) (evs : list event) : Prop :=
  forall ev, In ev evs -> is_print ev = false -> w_fault w ev = None.

(** No step of the run raises: no call of the guarded block, nor the decoding
    of the reply. *)
Definition faultless (w : world) (port : str) : Prop :=
  quiet w (calls w port)
  /\ ((0 < pending w)%N -> decode (reply_bytes w) <> None).

(** The reply text that is logged when nothing raises. *)
Definition logged_reply (w : world) : option str :=
  if (0 <? pending w)%N then option_map strip (decode (reply_bytes w)) else None.

(** The error the runtime raises for a line that does not decode. *)
Definition decode_error (w : world) (line : bytes) : exc :=
  {| exc_class_of := UnicodeDecodeError; exc_str := w_decode_msg w line |}.

(** Where an exception raised in the guarded block ends up: the handler
    prints the failure line, or the exception leaves the hook. *)
Definition settle (e : exc) (tr : list event) : outcome unit * list event :=
  if is_Exception (exc_class_of e)
  then (Return tt, tr ++ [EvPrint (failed_line (exc_str e))])
  else (Raise e, tr).

(** *** Recognising the terminal lines *)

Fixpoint starts_with (prefix t : str) : bool :=
  match prefix, t with
  | [], _ => true
  | c :: prefix', d :: t' => (c =? d)%N && starts_with prefix' t'
  | _ :: _, [] => false
  end.

Definition ends_with_LF (t : str) : bool :=
  match rev t with
  | c :: _ => (c =? 10)%N
  | [] => false
  end.

(** The argument of [print("[RTC] Done\n")]. *)
Definition is_done_line (t : str) : bool :=
  starts_with done_line t && (length t =? length done_line)%nat.

(** An argument of [print(f"[RTC] Failed: {e}\n")]. *)
Definition is_failed_line (t : str) : bool :=
  starts_with (lit "[RTC] Failed: ") t && ends_with_LF t
  && (length (lit "[RTC] Failed: ") <? length t)%nat.

Definition prints_done (ev : event) : bool :=
  match ev with EvPrint t => is_done_line t | _ => false end.
Definition prints_failed (ev : event) : bool :=
  match ev with EvPrint t => is_failed_line t | _ => false end.

(** A reply line: [print(f"[RTC] {...strip()}")]; stripped text never ends
    in a line feed, which sets it apart from the two terminal lines. *)
Definition prints_response (ev : event) : bool :=
  match ev with
  | EvPrint t => starts_with (lit "[RTC] ") t && negb (ends_with_LF t)
  | _ => false
  end.

(** ** Sample surroundings *)

(** No fault, a silent device, the clock at 1700000000.25. *)
Definition calm : world :=
  {| w_time := 6800000001 # 4;
     w_fault := fun _ => None;
     w_rx := [];
     w_decode_msg := fun _ => lit "invalid start byte";
     w_encode_msg := fun _ => lit "surrogates not allowed" |}.

Definition with_fault (f : event -> option exc) (w : world) : world :=
  {| w_time := w_time w; w_fault := f; w_rx := w_rx w;
     w_decode_msg := w_decode_msg w; w_encode_msg := w_encode_msg w |}.

Definition with_rx (rx : list (Q * byte)) (w : world) : world :=
  {| w_time := w_time w; w_fault := w_fault w; w_rx := rx;
     w_decode_msg := w_decode_msg w; w_encode_msg := w_encode_msg w |}.

(** All octets of a reply arriving at one moment. *)
Definition arriving (t : Q) (s : string) : list (Q * byte) :=
  map (fun b => (t, b)) (list_byte_of_string s).

Definition COM7 : gmap string str := {[ "UPLOAD_PORT"%string := lit "COM7" ]}.

Definition write_timeout : exc :=
  {| exc_class_of := SerialTimeoutException; exc_str := lit "Write timeout" |}.

Definition no_such_port : exc :=
  {| exc_class_of := SerialException;
     exc_str := lit "could not open port 'COM7': FileNotFoundError" |}.

Definition interrupted : exc :=
  {| exc_class_of := KeyboardInterrupt; exc_str := [] |}.

(** The write fails on an open port. *)
Definition write_fails : world :=
  with_fault (fun ev => if is_write ev then Some write_timeout else None) calm.

(** The port cannot be opened. *)
Definition open_fails : world :=
  with_fault (fun ev => if is_open ev then Some no_such_port else None) calm.

(** The user interrupts the first pause. *)
Definition ctrl_c : world :=
  with_fault (fun ev => if is_sleep ev then Some interrupted else None) calm.

(** The device answers within the half second the hook waits. *)
Definition prompt_reply : world :=
  with_rx (arriving (41 # 10) "  OK 1700000000 "
           ++ arriving (41 # 10) (newline ++ "next")) calm.

(** The device answers after the check, inside the read timeout. *)
Definition late_reply : world :=
  with_rx (arriving 5 ("OK" ++ newline)) calm.

(** The device answers with octets that are not UTF-8. *)
Definition garbled_reply : world :=
  with_rx [(4 # 1, xff); (4 # 1, xfe); (4 # 1, x0a)] calm.

(** *** Vocabulary of the further properties *)

(** The time the hook has spent pausing before the first event that
    satisfies [stop], if there is one. *)
Fixpoint pauses_until (stop : event -> bool) (tr : list event) : option Q :=
  match tr with
  | [] => None
  | ev :: tr' =>
      if stop ev then Some 0%Q
      else
        match ev with
        | EvSleep secs => option_map (Qplus secs) (pauses_until stop tr')
        | _ => pauses_until stop tr'
        end
  end.

Definition is_digit (c : N) : bool := ((48 <=? c) && (c <=? 57))%N.

(** A text against a pattern in which [d] stands for any decimal digit and
    every other character for itself. *)
Fixpoint shaped (pattern : list ascii) (t : str) : bool :=
  match pattern, t with
  | [], [] => true
  | a :: pattern', c :: t' =>
      (if Ascii.eqb a "d" then is_digit c else (N_of_ascii a =? c)%N)
      && shaped pattern' t'
  | _, _ => false
  end.

(** The characters of a numeral: digits and the sign. *)
Definition numeral_char (c : ascii) : Prop :=
  In c (list_ascii_of_string "0123456789-").

(** The date within a 400-year era, from the day of the era: the year of
    the era (counting from January), the month and the day of the month, as
    [gmtime] computes them. *)
Definition civil_of_doe (doe : Z) : Z * Z * Z :=
  let yoe := (doe - doe / 1460 + doe / 36524 - doe / 146096) / 365 in
  let doy := doe - (365 * yoe + yoe / 4 - yoe / 100) in
  let mp := (5 * doy + 2) / 153 in
  let d := doy - (153 * mp + 2) / 5 + 1 in
  let m := if mp <? 10 then mp + 3 else mp - 9 in
  (yoe + (if m <=? 2 then 1 else 0), m, d).

(** The inverse reckoning, [calendar.timegm]: the epoch count of a date and
    time of day. *)
Definition doe_of_civil (y m d : Z) : Z :=
  let y' := y - (if m <=? 2 then 1 else 0) in
  let doy := (153 * (if 2 <? m then m - 3 else m + 9) + 2) / 5 + d - 1 in
  y' * 365 + y' / 4 - y' / 100 + doy.

Definition timegm (tm : struct_time) : Z :=
  let y := tm_year tm - (if tm_mon tm <=? 2 then 1 else 0) in
  let era := y / 400 in
  let yoe := y - era * 400 in
  let doy :=
    (153 * (if 2 <? tm_mon tm then tm_mon tm - 3 else tm_mon tm + 9) + 2) / 5
    + tm_mday tm - 1 in
  let doe := yoe * 365 + yoe / 4 - yoe / 100 + doy in
  (era * 146097 + doe - 719468) * 86400
  + tm_hour tm * 3600 + tm_min tm * 60 + tm_sec tm.

(** A check over the [2 ^ k] integers from [lo], by halving. *)
Fixpoint all_from (f : Z -> bool) (k : nat) (lo : Z) : bool :=
  match k with
  | O => f lo
  | S k' => all_from f k' lo && all_from f k' (lo + 2 ^ Z.of_nat k')
  end.

(** What a day of the era must satisfy; checked for every day by
    computation.  The first era of the epoch begins with day 135080, 1
    January 1970, and day 146036 of an era is its last 31 December. *)
Definition doe_ok (doe : Z) : bool :=
  let '(y, m, d) := civil_of_doe doe in
  (0 <=? y) && (y <=? 400)
  && (1 <=? m) && (m <=? 12) && (1 <=? d) && (d <=? 31)
  && ((doe <? 135080) || (370 <=? y))
  && ((146036 <? doe) || (y <=? 399))
  && (let y' := y - (if m <=? 2 then 1 else 0) in
      (0 <=? y') && (y' <=? 399)
      && (y' * 365 + y' / 4 - y' / 100
          + (153 * (if 2 <? m then m - 3 else m + 9) + 2) / 5 + d - 1 =? doe)).

(** A number printed in [width] digits. *)
Definition digits_ok (width : nat) (v : Z) : bool :=
  let s := zfill width (str_int v) in
  (length s =? width)%nat && forallb is_digit s.

(** The pattern of the date in the first log line. *)
Definition date_pattern : list ascii :=
  list_ascii_of_string "dddd-dd-dd dd:dd:dd UTC".

(** The device sends the command back, all of it at once, one second after
    the port was opened. *)
Definition echo : world :=
  with_rx (arriving 4 ("SETTIME:1700000000" ++ newline) ++ arriving 6 "boot") calm.

(** The device answers with an empty line, carriage return and line feed. *)
Definition blank_reply : world :=
  with_rx (arriving 4 (String (ascii_of_nat 13) newline)) calm.

(** *** The console *)

(** What a sequence of [print] calls puts on the console: each argument,
    and after it the line feed [print] ends its output with. *)
Definition shown (texts : list str) : str :=
  flat_map (fun t => t ++ LF) texts.

Definition console (tr : list event) : str := shown (printed tr).

(** The lines of a text: what stands between its line feeds. *)
Fixpoint lines (t : str) : list str :=
  match t with
  | [] => [[]]
  | c :: t' =>
      if (c =? 10)%N then [] :: lines t'
      else
        match lines t' with
        | l :: ls => (c :: l) :: ls
        | [] => [[c]]
        end
  end.

(** A line that reads as the completion marker, [[RTC] Done], and one that
    reads as a failure line, [[RTC] Failed: ] and a description. *)
Definition reads_done (l : str) : bool :=
  starts_with (lit "[RTC] Done") l && (length l =? length (lit "[RTC] Done"))%nat.

Definition reads_failed (l : str) : bool :=
  starts_with (lit "[RTC] Failed: ") l.

Definition shows_done (tr : list event) : bool :=
  existsb reads_done (lines (console tr)).

Definition shows_failed (tr : list event) : bool :=
  existsb reads_failed (lines (console tr)).

(** The device answers with a line that reads like a failure. *)
Definition failure_like_reply : world :=
  with_rx (arriving 4 ("Failed: boom" ++ newline)) calm.

(** *** Reading the date back *)

(** The number a text of decimal digits denotes. *)
Definition read_digits (s : str) : Z :=
  fold_left (fun acc c => 10 * acc + (Z.of_N c - 48)) s 0.

(** A number printed in [width] digits is read back from them. *)
Definition reads_back (width : nat) (v : Z) : bool :=
  read_digits (zfill width (str_int v)) =? v.

(** * Properties *)

(** ** The runtime *)

Lemma lit_app (s1 s2 : string) : lit (s1 ++ s2) = lit s1 ++ lit s2.
Proof.
  unfold lit. induction s1 as [|c s1 IH]; simpl; [reflexivity|].
  f_equal. exact IH.
Qed.

Lemma length_lit (s : string) : length (lit s) = String.length s.
Proof.
  unfold lit. induction s as [|c s IH]; simpl; [reflexivity|].
  f_equal. exact IH.
Qed.

Lemma ascii_only_app (s1 s2 : string) :
  ascii_only s1 -> ascii_only s2 -> ascii_only (s1 ++ s2).
Proof.
  unfold ascii_only. induction s1 as [|c s1 IH]; simpl; intros H1 H2; [exact H2|].
  inversion H1; subst. constructor; auto.
Qed.

Lemma octet_ascii (c : ascii) : octet (N_of_ascii c) = byte_of_ascii c.
Proof. unfold octet. now rewrite <- byte_of_ascii_via_N. Qed.

(** On ASCII text UTF-8 is the identity: octet for character. *)
Lemma encode_lit (s : string) :
  ascii_only s -> encode (lit s) = Some (list_byte_of_string s).
Proof.
  unfold ascii_only, lit, list_byte_of_string.
  induction s as [|c s IH]; simpl; intros H; [reflexivity|].
  inversion H as [|? ? Hc Hs]; subst.
  rewrite (IH Hs). unfold encode_char.
  apply N.ltb_lt in Hc. rewrite Hc. simpl. now rewrite octet_ascii.
Qed.

Lemma ascii_only_uint (d : uint) : ascii_only (NilEmpty.string_of_uint d).
Proof.
  unfold ascii_only.
  induction d; simpl; constructor; try assumption; reflexivity.
Qed.

Lemma ascii_only_int (d : Decimal.int) : ascii_only (NilZero.string_of_int d).
Proof.
  assert (Hu : forall u, ascii_only (NilZero.string_of_uint u)).
  { intros u. destruct u; try apply ascii_only_uint.
    repeat constructor. }
  destruct d as [u|u]; simpl; [apply Hu|].
  constructor; [reflexivity | apply Hu].
Qed.

Lemma LF_lit : LF = lit newline.
Proof. reflexivity. Qed.

(** The command is ASCII, so encoding it cannot fail and yields the text's
    own octets. *)
Lemma encode_settime (epoch : Z) :
  encode (lit "SETTIME:" ++ str_int epoch ++ LF) = Some (settime_bytes epoch).
Proof.
  unfold str_int, settime_bytes, settime_text.
  rewrite LF_lit, <- !lit_app. apply encode_lit.
  apply ascii_only_app; [repeat constructor|].
  apply ascii_only_app; [apply ascii_only_int | repeat constructor].
Qed.

(** *** Stripping *)

Lemma lstrip_head (s : str) :
  match lstrip s with
  | c :: _ => isspace c = false
  | [] => True
  end.
Proof.
  induction s as [|c s IH]; simpl; [exact I|].
  destruct (isspace c) eqn:Hc; [exact IH | exact Hc].
Qed.

(** Stripped text does not end in whitespace. *)
Lemma strip_last (s t : str) (c : N) : strip s = t ++ [c] -> isspace c = false.
Proof.
  unfold strip, rstrip. intros H.
  apply (f_equal (@rev N)) in H. rewrite rev_involutive, rev_unit in H.
  pose proof (lstrip_head (rev (lstrip s))) as Hh. now rewrite H in Hh.
Qed.

Lemma lstrip_snoc (v : str) (d : N) :
  isspace d = false -> exists v', lstrip (v ++ [d]) = v' ++ [d].
Proof.
  intros Hd. induction v as [|x v IH]; simpl.
  - rewrite Hd. now exists [].
  - destruct (isspace x); [exact IH|]. now exists (x :: v).
Qed.

(** Nor does it begin with whitespace. *)
Lemma strip_first (s t : str) (c : N) : strip s = c :: t -> isspace c = false.
Proof.
  unfold strip, rstrip. intros H.
  pose proof (lstrip_head s) as Hh.
  destruct (lstrip s) as [|d u]; [discriminate|].
  simpl in H. destruct (lstrip_snoc (rev u) d Hh) as [v' E].
  rewrite E, rev_unit in H. now inversion H; subst.
Qed.

(** *** The printed lines *)

Lemma starts_with_app (p t : str) : starts_with p (p ++ t) = true.
Proof.
  induction p as [|c p IH]; simpl; [reflexivity|].
  now rewrite N.eqb_refl, IH.
Qed.

Lemma ends_with_LF_app (t : str) : ends_with_LF (t ++ LF) = true.
Proof. unfold ends_with_LF, LF. now rewrite rev_unit. Qed.

Lemma done_line_done : is_done_line done_line = true.
Proof. reflexivity. Qed.

Lemma done_line_not_failed : is_failed_line done_line = false.
Proof. reflexivity. Qed.

Lemma failed_line_failed (d : str) : is_failed_line (failed_line d) = true.
Proof.
  unfold is_failed_line, failed_line.
  rewrite starts_with_app, app_assoc, ends_with_LF_app.
  rewrite !length_app. simpl. apply Nat.ltb_lt. lia.
Qed.

Lemma failed_line_not_done (d : str) : is_done_line (failed_line d) = false.
Proof. reflexivity. Qed.

Lemma setting_line_not_done (epoch : Z) : is_done_line (setting_line epoch) = false.
Proof. reflexivity. Qed.

Lemma setting_line_not_failed (epoch : Z) : is_failed_line (setting_line epoch) = false.
Proof. reflexivity. Qed.

Lemma response_line_no_LF (text : str) :
  ends_with_LF (response_line (strip text)) = false.
Proof.
  unfold ends_with_LF, response_line. rewrite rev_app_distr.
  destruct (strip text) as [|c t] eqn:E using rev_ind; [reflexivity|].
  rewrite rev_unit. simpl.
  apply strip_last in E. apply N.eqb_neq. intros ->. discriminate.
Qed.

Lemma starts_with_same_length (p t : str) :
  starts_with p t = true -> length t = length p -> t = p.
Proof.
  revert t. induction p as [|c p IH]; intros [|d t]; simpl; try discriminate.
  - reflexivity.
  - intros H Hl. apply andb_prop in H as [Hc Hp].
    apply N.eqb_eq in Hc. subst d. f_equal. apply IH; [exact Hp | lia].
Qed.

Lemma is_done_line_eq (t : str) : is_done_line t = true -> t = done_line.
Proof.
  unfold is_done_line. intros H. apply andb_prop in H as [Hs Hl].
  apply Nat.eqb_eq in Hl. now apply starts_with_same_length.
Qed.

Lemma response_line_not_done (text : str) :
  is_done_line (response_line (strip text)) = false.
Proof.
  destruct (is_done_line _) eqn:H; [|reflexivity].
  apply is_done_line_eq in H.
  pose proof (response_line_no_LF text) as Hn. rewrite H in Hn. discriminate.
Qed.

Lemma response_line_not_failed (text : str) :
  is_failed_line (response_line (strip text)) = false.
Proof.
  unfold is_failed_line. rewrite response_line_no_LF.
  now rewrite andb_false_r.
Qed.

(** ** Running the hook *)

Lemma Qplus_0_r_eq (q : Q) : (q + 0)%Q = q.
Proof.
  destruct q as [n d]. unfold Qplus. simpl.
  now rewrite Z.mul_1_r, Z.add_0_r, Pos.mul_1_r.
Qed.

(** Symbolic execution: unfold the monad and the calls, leave texts alone. *)
Ltac exec :=
  cbv beta iota zeta delta
      [run trace_of after_upload bind ret raise call try_except_Exception
       time_time print time_sleep serial_Serial ser_write ser_flush
       ser_in_waiting ser_readline ser_close str_encode bytes_decode
       lift_option on_open_port record advance initial
       st_trace st_elapsed st_is_open st_rx st_tx ser_timeout fst snd];
  cbn [app].

Ltac quiet_by_cases :=
  let ev := fresh "ev" in
  let Hin := fresh "Hin" in
  intros ev Hin ?; cbn [In app] in Hin;
  repeat (destruct Hin as [<-|Hin]; [first [assumption | discriminate]|]);
  contradiction.

(** The run stops at a call that raises, after the calls [pre]. *)
Ltac stopped pre :=
  left; exists pre; do 3 eexists;
  split; [reflexivity|]; split; [quiet_by_cases|]; split; [reflexivity|];
  split; [eassumption|];
  unfold settle;
  match goal with
  | |- context [is_Exception ?c] => destruct (is_Exception c)
  end; split; reflexivity.

(** Case analysis on what the world injects at [ev]. *)
Ltac on_fault ev F pre :=
  let e := fresh "e" in
  match goal with
  | w : world |- _ =>
      destruct (w_fault w ev) as [e|] eqn:F; exec; [stopped pre|]
  end.

Lemma run_outcomes (w : world) (env : gmap string str) (p : str) :
  env !! "UPLOAD_PORT"%string = Some p -> p <> [] ->
  (exists pre ev rest e,
      calls w p = pre ++ ev :: rest /\ quiet w pre /\ is_print ev = false
      /\ w_fault w ev = Some e
      /\ (fst (run w env), trace_of w env)
         = settle e (prologue (epoch_of w) ++ pre ++ [ev])
      /\ st_is_open (snd (run w env)) = existsb is_open pre)
  \/ ((0 < pending w)%N /\ decode (reply_bytes w) = None
      /\ quiet w (calls w p)
      /\ (fst (run w env), trace_of w env)
         = settle (decode_error w (reply_bytes w))
                  (prologue (epoch_of w) ++ calls w p)
      /\ st_is_open (snd (run w env)) = true)
  \/ (((0 < pending w)%N -> decode (reply_bytes w) <> None)
      /\ quiet w (calls w p)
      /\ fst (run w env) = Return tt
      /\ trace_of w env = prologue (epoch_of w) ++ calls w p
      /\ st_is_open (snd (run w env)) = false).
Proof.
  intros Hp Hne. unfold trace_of, run, after_upload. rewrite Hp.
  destruct p as [|c p']; [contradiction|]. set (p := c :: p') in *.
  unfold calls, transmit, prologue, setting_line, epoch_of.
  exec. rewrite !Qplus_0_r_eq, encode_settime. exec.
  change (buffered _ (w_rx w)) with (pending w).
  change (read_line _ _ (w_rx w)) with (read_line 2 check_instant (w_rx w)).
  unfold reply_bytes.
  set (E := int (w_time w)).
  on_fault (EvSleep 3) F1 (@nil event).
  on_fault (EvOpen p 115200 2) F2 [EvSleep 3].
  on_fault (EvSleep 1) F3 [EvSleep 3; EvOpen p 115200 2].
  on_fault (EvWrite (settime_bytes E)) F4 [EvSleep 3; EvOpen p 115200 2; EvSleep 1].
  on_fault EvFlush F5
    [EvSleep 3; EvOpen p 115200 2; EvSleep 1; EvWrite (settime_bytes E)].
  on_fault (EvSleep (1 # 2)) F6
    [EvSleep 3; EvOpen p 115200 2; EvSleep 1; EvWrite (settime_bytes E); EvFlush].
  on_fault EvInWaiting F7
    [EvSleep 3; EvOpen p 115200 2; EvSleep 1; EvWrite (settime_bytes E); EvFlush;
     EvSleep (1 # 2)].
  change (buffered _ (w_rx w)) with (pending w).
  destruct (0 <? pending w)%N eqn:Hn; exec.
  - apply N.ltb_lt in Hn.
    on_fault EvReadline F8
      [EvSleep 3; EvOpen p 115200 2; EvSleep 1; EvWrite (settime_bytes E); EvFlush;
       EvSleep (1 # 2); EvInWaiting].
    change (read_line _ _ (w_rx w)) with (read_line 2 check_instant (w_rx w)).
    destruct (read_line 2 check_instant (w_rx w)) as [[line fin] rest].
    destruct (decode line) as [text|] eqn:Hd; exec.
    + on_fault EvClose F9
        [EvSleep 3; EvOpen p 115200 2; EvSleep 1; EvWrite (settime_bytes E);
         EvFlush; EvSleep (1 # 2); EvInWaiting; EvReadline;
         EvPrint (response_line (strip text))].
      right; right. repeat split; try reflexivity; [discriminate | quiet_by_cases].
    + right; left. unfold settle, decode_error; cbn [exc_class_of is_Exception].
      repeat split; try reflexivity; [assumption | quiet_by_cases].
  - on_fault EvClose F9
      [EvSleep 3; EvOpen p 115200 2; EvSleep 1; EvWrite (settime_bytes E); EvFlush;
       EvSleep (1 # 2); EvInWaiting].
    right; right. apply N.ltb_ge in Hn.
    repeat split; try reflexivity; [lia | quiet_by_cases].
Qed.

(** Without a port the hook returns at once and leaves everything as it
    was. *)
Lemma after_upload_skip (w : world) (source target : nodes)
    (env : gmap string str) (st : state) :
  env !! "UPLOAD_PORT"%string = None \/ env !! "UPLOAD_PORT"%string = Some [] ->
  after_upload w source target env st = (Return tt, st).
Proof. intros [H|H]; unfold after_upload; now rewrite H. Qed.

(** Splitting [l = pre ++ ev :: rest] for a list [l] that is spelled out. *)
Ltac split_calls H :=
  repeat match type of H with
    | _ :: _ = ?pre ++ _ :: _ =>
        let x := fresh "x" in
        let pre' := fresh "pre" in
        destruct pre as [|x pre']; cbn [app] in H;
        [injection H as <- <- | injection H as <- H]
    | [] = ?pre ++ _ :: _ => destruct pre; discriminate H
    end.

(** All the runs with a port, one goal for each: [Hout] is the outcome,
    [Htr] the trace, [Ho] the state of the port afterwards; [Hn] and [Hd]
    tell whether a reply was pending and whether it decoded. *)
Ltac run_cases w env p Hp Hne :=
  let Hc := fresh "Hc" in
  let Hr := fresh "Hr" in
  destruct (run_outcomes w env p Hp Hne)
    as [(pre & ev & rest & e & Hc & Hq & Hnp & Hf & Hr & Ho)
       |[(Hn & Hd & Hq & Hr & Ho) | (Hd & Hq & Hout & Htr & Ho)]];
  [ unfold settle in Hr;
    destruct (is_Exception (exc_class_of e)) eqn:Hcls;
    injection Hr as Hout Htr;
    unfold prologue in Htr;
    unfold calls, transmit, epilogue in Hc; cbn [app] in Hc;
    (destruct (0 <? pending w)%N eqn:Hn;
     [destruct (decode (reply_bytes w)) as [text|] eqn:Hd|]);
    split_calls Hc; try discriminate Hnp;
    cbn [app existsb is_open orb] in Htr, Ho
  | unfold settle, decode_error in Hr; cbn [is_Exception exc_class_of exc_str] in Hr;
    injection Hr as Hout Htr;
    unfold calls, transmit, prologue in Htr; unfold calls, transmit in Hq;
    apply N.ltb_lt in Hn as Hn'; rewrite Hn', Hd in Htr, Hq; clear Hn';
    cbn [app] in Htr
  | unfold calls, transmit, epilogue, prologue in Htr;
    unfold calls, transmit, epilogue in Hq;
    (destruct (0 <? pending w)%N eqn:Hn;
     [destruct (decode (reply_bytes w)) as [text|] eqn:Hd';
      [|exfalso; apply Hd; [now apply N.ltb_lt | reflexivity]]|]);
    cbn [app] in Htr ].

(** ** The claims *)

(** C4. When the upload-port identifier is absent or empty, [after_upload]
    does nothing and returns successfully: from any state it returns without
    raising and leaves the state as it was, so no clock is read, no port is
    opened, no octet is written, no pause is made and nothing is printed. *)
Theorem no_port_no_operation (w : world) (source target : nodes)
    (env : gmap string str) (st : state) :
  env !! "UPLOAD_PORT"%string = None \/ env !! "UPLOAD_PORT"%string = Some [] ->
  after_upload w source target env st = (Return tt, st)
  /\ trace_of w env = [].
Proof.
  intros H. split; [now apply after_upload_skip|].
  unfold trace_of, run. now rewrite after_upload_skip.
Qed.

Lemma no_port_no_operation_witness :
  ((∅ : gmap string str) !! "UPLOAD_PORT"%string = None
   \/ (∅ : gmap string str) !! "UPLOAD_PORT"%string = Some [])
  /\ after_upload calm [] [] ∅ initial = (Return tt, initial)
  /\ trace_of calm ∅ = [].
Proof.
  split; [left; reflexivity|].
  apply (no_port_no_operation calm [] [] ∅ initial). left; reflexivity.
Defined.

(** C1, at the failing input.  The port [COM7] opens and the write then
    raises: the hook returns normally, having opened the port, without ever
    calling [close], and the handle is still open when it returns. *)
Theorem port_left_open_when_write_fails :
  w_fault write_fails (EvOpen (lit "COM7") 115200 2) = None
  /\ w_fault write_fails (EvWrite (settime_bytes 1700000000)) = Some write_timeout
  /\ fst (run write_fails COM7) = Return tt
  /\ count is_open (trace_of write_fails COM7) = 1%nat
  /\ count is_close (trace_of write_fails COM7) = 0%nat
  /\ st_is_open (snd (run write_fails COM7)) = true.
Proof. vm_compute. repeat split. Qed.

(** The same for every run: when the port was opened and the failure line is
    printed, the handle is open on return. *)
Lemma handle_open_after_failure (w : world) (env : gmap string str) (p : str) :
  env !! "UPLOAD_PORT"%string = Some p -> p <> [] ->
  w_fault w (EvOpen p 115200 2) = None ->
  In (EvOpen p 115200 2) (trace_of w env) ->
  count prints_failed (trace_of w env) = 1%nat ->
  st_is_open (snd (run w env)) = true.
Proof.
  intros Hp Hne Hopen Hin Hfail.
  run_cases w env p Hp Hne; rewrite Htr in Hin, Hfail; try exact Ho;
    try congruence;
    cbn [count List.filter prints_failed length] in Hfail;
    rewrite ?setting_line_not_failed, ?response_line_not_failed,
      ?done_line_not_failed, ?failed_line_failed in Hfail;
    cbn [length] in Hfail; try discriminate Hfail;
    cbn [In] in Hin; intuition discriminate.
Qed.

(** C2. For every epoch [E] captured at invocation, once the hook gets as
    far as writing (port configured, the pauses and the opening raise
    nothing), what it writes to the port is exactly one octet string: the
    ASCII encoding of [SETTIME:], the decimal numeral of [E] and one line
    feed; in no run at all is anything else written; and for
    [E = 1700000000] the octets are those of [SETTIME:1700000000\n]. *)
Theorem settime_command_bytes (E : Z) (w : world) (env : gmap string str) (p : str) :
  epoch_of w = E ->
  env !! "UPLOAD_PORT"%string = Some p -> p <> [] ->
  quiet w [EvSleep 3; EvOpen p 115200 2; EvSleep 1] ->
  written (trace_of w env)
  = [list_byte_of_string
       ("SETTIME:" ++ NilZero.string_of_int (Z.to_int E) ++ newline)]
  /\ (E = 1700000000 ->
      written (trace_of w env)
      = [list_byte_of_string ("SETTIME:1700000000" ++ newline)]).
Proof.
  intros HE Hp Hne Hquiet.
  assert (H3 : w_fault w (EvSleep 3) = None) by (apply Hquiet; simpl; auto).
  assert (H2 : w_fault w (EvOpen p 115200 2) = None) by (apply Hquiet; simpl; auto).
  assert (H1 : w_fault w (EvSleep 1) = None) by (apply Hquiet; simpl; auto).
  assert (Hw : written (trace_of w env) = [settime_bytes E]).
  { subst E. run_cases w env p Hp Hne; rewrite Htr; try reflexivity; congruence. }
  split; [exact Hw|]. intros ->. exact Hw.
Qed.

Lemma settime_command_bytes_witness :
  epoch_of calm = 1700000000
  /\ COM7 !! "UPLOAD_PORT"%string = Some (lit "COM7")
  /\ lit "COM7" <> []
  /\ written (trace_of calm COM7)
     = [list_byte_of_string ("SETTIME:1700000000" ++ newline)].
Proof.
  split; [reflexivity|]. split; [reflexivity|]. split; [discriminate|].
  refine (proj2 (settime_command_bytes 1700000000 calm COM7 (lit "COM7")
                   _ _ _ _) eq_refl).
  - reflexivity.
  - reflexivity.
  - discriminate.
  - intros ev _ _. reflexivity.
Defined.

(** In no run is anything written but that command, and at most once. *)
Lemma nothing_else_written (w : world) (env : gmap string str) :
  written (trace_of w env) = []
  \/ written (trace_of w env) = [settime_bytes (epoch_of w)].
Proof.
  destruct (env !! "UPLOAD_PORT"%string) as [[|c p]|] eqn:Hp.
  - left. unfold trace_of, run. rewrite after_upload_skip; auto.
  - assert (Hne : c :: p <> []) by discriminate.
    run_cases w env (c :: p) Hp Hne; rewrite Htr; auto.
  - left. unfold trace_of, run. rewrite after_upload_skip; auto.
Qed.

(** The numeral is the decimal representation: read back, it is the epoch. *)
Lemma settime_numeral_reads_back (E : Z) :
  option_map Z.of_int (NilZero.int_of_string (NilZero.string_of_int (Z.to_int E)))
  = Some E.
Proof.
  rewrite NilZero.isi.
  - simpl. now rewrite DecimalZ.of_to.
  - destruct E; simpl; try discriminate.
    intros H. injection H as H. now apply DecimalPos.Unsigned.to_uint_nonnil in H.
  - destruct E; simpl; try discriminate.
    intros H. injection H as H. now apply DecimalPos.Unsigned.to_uint_nonnil in H.
Qed.

(** Membership in a list that is spelled out. *)
Ltac in_list :=
  solve [cbn [In app]; repeat (first [left; reflexivity | right])].

(** The two recognisers accept the terminal lines and nothing else. *)
Lemma is_failed_line_iff (t : str) :
  is_failed_line t = true <-> exists d, t = failed_line d.
Proof.
  split.
  - unfold is_failed_line, failed_line. intros H.
    apply andb_prop in H as [H Hlen]. apply andb_prop in H as [Hs He].
    apply Nat.ltb_lt in Hlen.
    assert (Hpre : forall (q u : str), starts_with q u = true ->
                     exists v, u = q ++ v).
    { induction q as [|c q IH]; intros [|d u] Hq; simpl in Hq; try discriminate.
      - now exists [].
      - now exists (d :: u).
      - apply andb_prop in Hq as [Hc Hq]. apply N.eqb_eq in Hc. subst d.
        destruct (IH u Hq) as [v ->]. now exists v. }
    destruct (Hpre _ _ Hs) as [v ->].
    rewrite length_app in Hlen.
    unfold ends_with_LF in He. rewrite rev_app_distr in He.
    destruct v as [|c v] using rev_ind; [simpl in Hlen; lia|].
    rewrite rev_unit in He. simpl in He. apply N.eqb_eq in He. subst c.
    now exists v.
  - intros [d ->]. apply failed_line_failed.
Qed.

Lemma is_done_line_iff (t : str) : is_done_line t = true <-> t = done_line.
Proof. split; [apply is_done_line_eq | now intros ->]. Qed.

Lemma count_cons (q : event -> bool) (ev : event) (tr : list event) :
  count q (ev :: tr) = ((if q ev then 1 else 0) + count q tr)%nat.
Proof. unfold count. simpl. now destruct (q ev). Qed.

Lemma count_nil (q : event -> bool) : count q [] = 0%nat.
Proof. reflexivity. Qed.

(** Counting the terminal and the reply lines of a trace that is spelled
    out. *)
Ltac count_lines :=
  rewrite ?count_cons, ?count_nil;
  cbn [prints_done prints_failed prints_response];
  rewrite ?setting_line_not_done, ?setting_line_not_failed,
    ?response_line_not_done, ?response_line_not_failed,
    ?done_line_done, ?done_line_not_failed,
    ?failed_line_failed, ?failed_line_not_done;
  cbn [Nat.add].

(** C9. With a port configured the clock is read exactly once, as the very
    first effect, before any pause or port call; the integer captured then
    is the one formatted in the first log line and the one every written
    command carries. *)
Theorem epoch_captured_once (w : world) (env : gmap string str) (p : str) :
  env !! "UPLOAD_PORT"%string = Some p -> p <> [] ->
  exists rest,
    trace_of w env
    = EvTime :: EvPrint (setting_line (int (w_time w))) :: rest
    /\ count is_time rest = 0%nat
    /\ (forall data, In (EvWrite data) rest ->
          data = settime_bytes (int (w_time w))).
Proof.
  intros Hp Hne. fold (epoch_of w).
  run_cases w env p Hp Hne; rewrite Htr; eexists;
    (split; [reflexivity|]); (split; [reflexivity|]);
    intros data Hin; cbn [In] in Hin;
    repeat (destruct Hin as [Hin|Hin]; [try discriminate Hin|]);
    try contradiction; now injection Hin as <-.
Qed.

Lemma epoch_captured_once_witness :
  COM7 !! "UPLOAD_PORT"%string = Some (lit "COM7")
  /\ lit "COM7" <> []
  /\ exists rest,
       trace_of calm COM7
       = EvTime :: EvPrint (setting_line (int (w_time calm))) :: rest
       /\ count is_time rest = 0%nat
       /\ (forall data, In (EvWrite data) rest ->
             data = settime_bytes (int (w_time calm))).
Proof.
  split; [reflexivity|]. split; [discriminate|].
  apply (epoch_captured_once calm COM7 (lit "COM7")); [reflexivity | discriminate].
Defined.

(** [print] ends what it writes with a line feed, so on the console the
    reply line [[RTC] Failed: boom] is the very text of the failure line for
    the description [boom]. *)
Lemma reply_shown_as_failure_line :
  shown [response_line (lit "Failed: boom")] = failed_line (lit "boom").
Proof. reflexivity. Qed.

(** A device that answers [Failed: boom]: the run completes, and the console
    has a line that reads as a failure and the completion marker after it. *)
Lemma console_of_failure_like_reply :
  fst (run failure_like_reply COM7) = Return tt
  /\ lines (console (trace_of failure_like_reply COM7))
     = [ [];
         lit "[RTC] Setting to system time: 2023-11-14 22:13:20 UTC";
         lit "[RTC] Failed: boom";
         lit "[RTC] Done";
         []; [] ].
Proof. split; vm_compute; reflexivity. Qed.

(** C8 as it is worded does not hold: it speaks of what the console shows,
    and the reply line carries text of the device's choosing behind the same
    prefix as the two markers.  When the device answers [Failed: boom] the
    run returns normally and the console shows both a failure line and the
    completion marker. *)
Lemma both_markers_on_console :
  ~ (forall (w : world) (env : gmap string str) (p : str),
       env !! "UPLOAD_PORT"%string = Some p -> p <> [] ->
       fst (run w env) = Return tt ->
       xorb (shows_done (trace_of w env)) (shows_failed (trace_of w env)) = true).
Proof.
  intros H.
  specialize (H failure_like_reply COM7 (lit "COM7") eq_refl ltac:(discriminate)
                ltac:(vm_compute; reflexivity)).
  vm_compute in H. discriminate H.
Qed.

Lemma done_line_is_no_failed_line (d : str) : done_line <> failed_line d.
Proof.
  intros H. pose proof (failed_line_not_done d) as Hn.
  rewrite <- H, done_line_done in Hn. discriminate Hn.
Qed.

(** A text neither recogniser accepts is the argument of no terminal
    [print]. *)
Lemma not_terminal (t : str) :
  is_done_line t = false -> is_failed_line t = false ->
  t <> done_line /\ forall d, t <> failed_line d.
Proof.
  intros Hd Hf. split.
  - intros ->. rewrite done_line_done in Hd. discriminate Hd.
  - intros d ->. rewrite failed_line_failed in Hf. discriminate Hf.
Qed.

Lemma shown_snoc (init : list str) (final : str) :
  shown (init ++ [final]) = shown init ++ final ++ LF.
Proof. unfold shown. rewrite flat_map_app. simpl. now rewrite app_nil_r. Qed.

(** The prints of a run that are spelled out, split into the last one and
    those before it. *)
Ltac split_prints Htr :=
  lazymatch type of Htr with
  | _ = ?tr =>
      let l := eval cbn [printed flat_map app] in (printed tr) in
      lazymatch l with
      | [?a; ?b] => exists [a], b
      | [?a; ?b; ?c] => exists [a; b], c
      end
  end.

(** C8, amended.  A run with a port configured that returns normally
    executes exactly one of the two terminal [print] statements, the one of
    the completion line or the one of the failure line, never both, and it
    is the last thing the run prints: the console ends with that line.
    What is printed before it is the first log line and at most one reply
    line; neither is the argument of a terminal [print], though on the
    console the reply line, whose text is the device's, may read like
    either marker. *)
Theorem one_terminal_print (w : world) (env : gmap string str) (p : str) :
  env !! "UPLOAD_PORT"%string = Some p -> p <> [] ->
  fst (run w env) = Return tt ->
  exists init final,
    printed (trace_of w env) = init ++ [final]
    /\ (init = [setting_line (epoch_of w)]
        \/ exists text,
             init = [setting_line (epoch_of w); response_line (strip text)])
    /\ (forall t, In t init -> t <> done_line /\ forall d, t <> failed_line d)
    /\ ((final = done_line /\ forall d, final <> failed_line d)
        \/ ((exists d, final = failed_line d) /\ final <> done_line))
    /\ console (trace_of w env) = shown init ++ final ++ LF.
Proof.
  intros Hp Hne Hret.
  assert (H : exists init final,
            printed (trace_of w env) = init ++ [final]
            /\ (init = [setting_line (epoch_of w)]
                \/ exists text,
                     init = [setting_line (epoch_of w);
                             response_line (strip text)])
            /\ ((final = done_line /\ forall d, final <> failed_line d)
                \/ ((exists d, final = failed_line d) /\ final <> done_line))).
  { run_cases w env p Hp Hne; try congruence;
      split_prints Htr; rewrite Htr; cbn [printed flat_map app];
      (split; [reflexivity|]);
      (split; [first [left; reflexivity | right; eexists; reflexivity]|]);
      first [ left; split; [reflexivity | apply done_line_is_no_failed_line]
            | right; split;
              [eexists; reflexivity
              |intros E; symmetry in E;
               exact (done_line_is_no_failed_line _ E)] ]. }
  destruct H as (init & final & Hpr & Hinit & Hfinal).
  exists init, final.
  split; [exact Hpr|]. split; [exact Hinit|]. split; [|split; [exact Hfinal|]].
  - destruct Hinit as [->|[text ->]]; intros t Ht; cbn [In] in Ht;
      repeat (destruct Ht as [<-|Ht]); try contradiction;
      apply not_terminal;
      first [ apply setting_line_not_done | apply setting_line_not_failed
            | apply response_line_not_done | apply response_line_not_failed ].
  - unfold console. rewrite Hpr. apply shown_snoc.
Qed.

Lemma one_terminal_print_witness :
  COM7 !! "UPLOAD_PORT"%string = Some (lit "COM7")
  /\ lit "COM7" <> []
  /\ fst (run open_fails COM7) = Return tt
  /\ exists init final,
       printed (trace_of open_fails COM7) = init ++ [final]
       /\ final = failed_line (exc_str no_such_port)
       /\ final <> done_line.
Proof.
  split; [reflexivity|]. split; [discriminate|]. split; [reflexivity|].
  destruct (one_terminal_print open_fails COM7 (lit "COM7")
              eq_refl ltac:(discriminate) eq_refl)
    as (init & final & Hpr & _ & _ & Hfinal & _).
  assert (Hc : printed (trace_of open_fails COM7)
               = [setting_line (epoch_of open_fails)]
                 ++ [failed_line (exc_str no_such_port)])
    by (vm_compute; reflexivity).
  assert (Hs : [setting_line (epoch_of open_fails)]
               ++ [failed_line (exc_str no_such_port)] = init ++ [final])
    by (rewrite <- Hc; exact Hpr).
  apply app_inj_tail in Hs as [_ Hlast].
  exists init, final. split; [exact Hpr|]. split; [now symmetry|].
  destruct Hfinal as [[_ Hno]|[_ Hnd]]; [|exact Hnd].
  exfalso. apply (Hno (exc_str no_such_port)). now symmetry.
Defined.

(** C3. With a port configured, whatever raises in the step sequence
    (opening, pausing, writing, flushing, polling, reading, decoding,
    closing), as long as what is raised is an [Exception], is caught inside
    the hook: the hook returns normally, so nothing propagates, and a
    failure line carrying the description of the error is printed. *)
Theorem failures_logged_not_propagated (w : world) (env : gmap string str) (p : str) :
  env !! "UPLOAD_PORT"%string = Some p -> p <> [] ->
  (forall ev e, w_fault w ev = Some e -> is_Exception (exc_class_of e) = true) ->
  fst (run w env) = Return tt
  /\ (forall ev e,
        In ev (trace_of w env) -> is_print ev = false -> is_time ev = false ->
        w_fault w ev = Some e ->
        In (EvPrint (failed_line (exc_str e))) (trace_of w env))
  /\ (In EvReadline (trace_of w env) -> w_fault w EvReadline = None ->
      decode (reply_bytes w) = None ->
      In (EvPrint (failed_line (w_decode_msg w (reply_bytes w)))) (trace_of w env)).
Proof.
  intros Hp Hne Hexc.
  run_cases w env p Hp Hne;
    try (apply Hexc in Hf; congruence);
    unfold quiet in Hq; rewrite Htr; (split; [exact Hout|split]).
  all: try (intros ev' e' Hin Hpr Htm Hev; cbn [In] in Hin;
            repeat (destruct Hin as [<-|Hin];
                    [first [ discriminate Hpr | discriminate Htm
                           | rewrite Hf in Hev; injection Hev as <-; in_list
                           | rewrite Hq in Hev by (first [in_list | reflexivity]);
                             discriminate Hev ]|]);
            contradiction).
  all: intros Hin Hrl Hdec; try congruence; try in_list;
    cbn [In] in Hin; repeat (destruct Hin as [Hin|Hin]; [discriminate Hin|]);
    contradiction.
Qed.

Lemma failures_logged_not_propagated_witness :
  COM7 !! "UPLOAD_PORT"%string = Some (lit "COM7")
  /\ lit "COM7" <> []
  /\ (forall ev e, w_fault write_fails ev = Some e ->
        is_Exception (exc_class_of e) = true)
  /\ fst (run write_fails COM7) = Return tt
  /\ In (EvPrint (failed_line (lit "Write timeout"))) (trace_of write_fails COM7).
Proof.
  assert (Hexc : forall ev e, w_fault write_fails ev = Some e ->
                   is_Exception (exc_class_of e) = true).
  { intros ev e. simpl. destruct (is_write ev); [|discriminate].
    intros H. injection H as <-. reflexivity. }
  split; [reflexivity|]. split; [discriminate|]. split; [exact Hexc|].
  destruct (failures_logged_not_propagated write_fails COM7 (lit "COM7")
              eq_refl ltac:(discriminate) Hexc) as (Hret & Hlog & _).
  split; [exact Hret|].
  apply (Hlog (EvWrite (settime_bytes 1700000000)) write_timeout);
    [vm_compute; tauto | reflexivity | reflexivity | reflexivity].
Defined.

(** What is not an [Exception] is not caught: an interrupt during the first
    pause leaves the hook, and no failure line is printed. *)
Lemma interrupt_propagates :
  fst (run ctrl_c COM7) = Raise interrupted
  /\ count prints_failed (trace_of ctrl_c COM7) = 0%nat.
Proof. split; reflexivity. Qed.

(** ** The reply *)

(** The hook looks at the input buffer three pauses after its invocation. *)
Lemma check_instant_is_after_the_pauses :
  (0 + 3 + 1 + (1 # 2))%Q = check_instant.
Proof. reflexivity. Qed.

(** Octets are pending at the check exactly when the first octet of the
    device has arrived by then. *)
Lemma pending_iff (w : world) :
  (0 < pending w)%N
  <-> exists t b rx, w_rx w = (t, b) :: rx /\ (t <= check_instant)%Q.
Proof.
  unfold pending. destruct (w_rx w) as [|[t b] rx]; simpl.
  - split; [lia | intros (? & ? & ? & H & _); discriminate H].
  - destruct (Qle_bool t check_instant) eqn:Ht.
    + split; [|lia]. intros _. exists t, b, rx. split; [reflexivity|].
      now apply Qle_bool_iff.
    + split; [lia|]. intros (t' & b' & rx' & H & Hle). injection H as <- <- <-.
      apply Qle_bool_iff in Hle. congruence.
Qed.


(** [readline] takes octets off the front of the stream, in order, and
    stops behind the first line feed. *)
Lemma read_line_prefix (timeout now : Q) (rx : list (Q * byte)) :
  map snd rx
  = fst (fst (read_line timeout now rx)) ++ map snd (snd (read_line timeout now rx)).
Proof.
  revert now. induction rx as [|[t b] rx IH]; intros now; simpl; [reflexivity|].
  destruct (Qle_bool t (now + timeout)); [|reflexivity].
  destruct (Byte.eqb b x0a); [reflexivity|].
  specialize (IH (if Qle_bool t now then now else t)).
  destruct (read_line timeout (if Qle_bool t now then now else t) rx) as [[l f] r].
  simpl in *. now rewrite IH.
Qed.

Lemma read_line_one_line (timeout now : Q) (rx : list (Q * byte)) (l1 l2 : bytes) :
  fst (fst (read_line timeout now rx)) = l1 ++ x0a :: l2 -> l2 = [].
Proof.
  revert now l1. induction rx as [|[t b] rx IH]; intros now l1; simpl.
  - destruct l1; discriminate.
  - destruct (Qle_bool t (now + timeout)); [|destruct l1; discriminate].
    destruct (Byte.eqb b x0a) eqn:Hb.
    + simpl. intros H. destruct l1 as [|c l1]; simpl in H;
        [now inversion H | inversion H as [[Hc Hl]]; destruct l1; discriminate Hl].
    + specialize (IH (if Qle_bool t now then now else t)).
      destruct (read_line timeout (if Qle_bool t now then now else t) rx) as [[l f] r].
      simpl in *. destruct l1 as [|c l1]; simpl; intros H; inversion H; subst.
      * vm_compute in Hb. discriminate Hb.
      * eapply IH; reflexivity.
Qed.

(** A pending octet is not lost: the line read is not empty. *)
Lemma reply_bytes_nonempty (w : world) : (0 < pending w)%N -> reply_bytes w <> [].
Proof.
  intros H. apply pending_iff in H as (t & b & rx & Hrx & Hle).
  unfold reply_bytes. rewrite Hrx. simpl.
  assert (Ht : Qle_bool t (check_instant + 2) = true).
  { apply Qle_bool_iff. unfold check_instant in *. lra. }
  rewrite Ht. destruct (Byte.eqb b x0a); [discriminate|].
  destruct (read_line 2 _ rx) as [[l f] r]. discriminate.
Qed.

Lemma response_line_is_response (text : str) :
  prints_response (EvPrint (response_line (strip text))) = true.
Proof.
  unfold prints_response. rewrite response_line_no_LF.
  unfold response_line. now rewrite starts_with_app.
Qed.

Lemma failed_line_not_response (d : str) :
  prints_response (EvPrint (failed_line d)) = false.
Proof.
  unfold prints_response, failed_line.
  now rewrite app_assoc, ends_with_LF_app, andb_false_r.
Qed.

Lemma setting_line_not_response (epoch : Z) :
  prints_response (EvPrint (setting_line epoch)) = false.
Proof. reflexivity. Qed.

Lemma done_line_not_response : prints_response (EvPrint done_line) = false.
Proof. reflexivity. Qed.

(** Counting the reply lines of a trace that is spelled out. *)
Ltac count_replies :=
  rewrite ?count_cons, ?count_nil;
  rewrite ?response_line_is_response, ?failed_line_not_response,
    ?setting_line_not_response, ?done_line_not_response;
  cbn [is_readline is_in_waiting Nat.add].

(** A stop at a call that the hypothesis [H] declares quiet is impossible. *)
Ltac not_quiet H Hf :=
  rewrite H in Hf by (first [in_list | reflexivity]); discriminate Hf.



(** C6. When octets are pending at the moment the hook looks (the steps up
    to there raising nothing), [readline] is called exactly once; and when
    that call returns and its line decodes, the text logged for the reply is
    that line decoded and stripped of leading and trailing whitespace: it is
    printed, it is the only reply line, and no other reply line is ever
    printed. *)
Theorem reply_logged_stripped (w : world) (env : gmap string str) (p : str) :
  env !! "UPLOAD_PORT"%string = Some p -> p <> [] ->
  quiet w (transmit p (epoch_of w)) ->
  (0 < pending w)%N ->
  count is_readline (trace_of w env) = 1%nat
  /\ (forall text,
        w_fault w EvReadline = None -> decode (reply_bytes w) = Some text ->
        In (EvPrint (response_line (strip text))) (trace_of w env)
        /\ count prints_response (trace_of w env) = 1%nat)
  /\ (forall t,
        In (EvPrint t) (trace_of w env) -> prints_response (EvPrint t) = true ->
        exists text,
          decode (reply_bytes w) = Some text /\ t = response_line (strip text)).
Proof.
  intros Hp Hne Hquiet Hpos. unfold quiet, transmit in Hquiet.
  apply N.ltb_lt in Hpos.
  run_cases w env p Hp Hne;
    try discriminate Hpos; try (rewrite Hpos in Hn; discriminate Hn);
    try (not_quiet Hquiet Hf);
    rewrite Htr; (split; [reflexivity|split]).
  all: try (intros text' Hrl Hdec;
            first [ congruence
                  | assert (text' = text) as -> by congruence;
                    split; [in_list | count_replies; reflexivity] ]).
  all: intros t Hin Hresp; cbn [In] in Hin;
    repeat (destruct Hin as [Hin|Hin];
            [first [ discriminate Hin
                   | injection Hin as <-;
                     first [ now rewrite ?setting_line_not_response,
                               ?failed_line_not_response,
                               ?done_line_not_response in Hresp
                           | eexists; split; reflexivity ] ]|]);
    contradiction.
Qed.

Lemma reply_logged_stripped_witness :
  COM7 !! "UPLOAD_PORT"%string = Some (lit "COM7")
  /\ lit "COM7" <> []
  /\ quiet prompt_reply (transmit (lit "COM7") (epoch_of prompt_reply))
  /\ (0 < pending prompt_reply)%N
  /\ decode (reply_bytes prompt_reply) = Some (lit "  OK 1700000000 " ++ LF)
  /\ count is_readline (trace_of prompt_reply COM7) = 1%nat
  /\ In (EvPrint (lit "[RTC] OK 1700000000")) (trace_of prompt_reply COM7).
Proof.
  assert (Hq : quiet prompt_reply (transmit (lit "COM7") (epoch_of prompt_reply)))
    by (intros ev _ _; reflexivity).
  split; [reflexivity|]. split; [discriminate|]. split; [exact Hq|].
  split; [reflexivity|]. split; [reflexivity|].
  destruct (reply_logged_stripped prompt_reply COM7 (lit "COM7")
              eq_refl ltac:(discriminate) Hq eq_refl) as (Hone & Hlog & _).
  split; [exact Hone|].
  exact (proj1 (Hlog (lit "  OK 1700000000 " ++ LF) eq_refl eq_refl)).
Defined.

(** What [strip] removes is whitespace, at the two ends only. *)
Lemma lstrip_spec (s : str) :
  exists l, s = l ++ lstrip s /\ forallb isspace l = true.
Proof.
  induction s as [|c s (l & Hs & Hl)]; simpl.
  - now exists [].
  - destruct (isspace c) eqn:Hc.
    + exists (c :: l). simpl. rewrite Hc, Hl. split; [now f_equal | reflexivity].
    + now exists [].
Qed.

Lemma strip_spec (s : str) :
  exists l r,
    s = l ++ strip s ++ r /\ forallb isspace l = true /\ forallb isspace r = true.
Proof.
  destruct (lstrip_spec s) as (l & Hs & Hl).
  destruct (lstrip_spec (rev (lstrip s))) as (r & Hr & Hrs).
  exists l, (rev r). unfold strip, rstrip. split; [|split; [exact Hl|]].
  - rewrite <- rev_app_distr, <- Hr, rev_involutive. exact Hs.
  - rewrite forallb_forall in *. intros x Hx. apply Hrs. now apply in_rev.
Qed.



(** ** The order of the steps *)

(** C7 as it is worded does not hold: it promises the whole sequence, the
    closing of the port and the completion line included, for every run with
    a port configured.  When the port cannot be opened the run ends after
    the attempt, with the failure line. *)
Lemma sequence_cut_short_when_open_fails :
  ~ (forall (w : world) (env : gmap string str) (p : str),
       env !! "UPLOAD_PORT"%string = Some p -> p <> [] ->
       exists reply, trace_of w env = sequence p (epoch_of w) reply).
Proof.
  intros H.
  destruct (H open_fails COM7 (lit "COM7") eq_refl ltac:(discriminate))
    as [reply Hseq].
  assert (Hlen : length (trace_of open_fails COM7) = 5%nat) by reflexivity.
  rewrite Hseq in Hlen. destruct reply; discriminate Hlen.
Qed.

(** C7, amended.  With a port configured, a run in which no step raises
    performs exactly these effects, in this order and with these constants,
    none of them moved or repeated: read the clock, print the epoch as UTC,
    pause 3, open the port at 115200 baud with read timeout 2, pause 1,
    write the command, flush, pause 0.5, look at the input buffer, read and
    log one line if octets are pending, close, print the completion line;
    and it returns normally. *)
Theorem steps_in_order (w : world) (env : gmap string str) (p : str) :
  env !! "UPLOAD_PORT"%string = Some p -> p <> [] ->
  faultless w p ->
  fst (run w env) = Return tt
  /\ trace_of w env = sequence p (epoch_of w) (logged_reply w).
Proof.
  intros Hp Hne [Hquiet Hdec].
  unfold logged_reply, sequence, prologue, transmit, epilogue.
  unfold quiet, calls, transmit, epilogue in Hquiet.
  run_cases w env p Hp Hne; cbn [app] in Hquiet;
    try (not_quiet Hquiet Hf).
  - now destruct (Hdec Hn).
  - split; [exact Hout | exact Htr].
  - split; [exact Hout | exact Htr].
Qed.

Lemma steps_in_order_witness :
  COM7 !! "UPLOAD_PORT"%string = Some (lit "COM7")
  /\ lit "COM7" <> []
  /\ faultless prompt_reply (lit "COM7")
  /\ fst (run prompt_reply COM7) = Return tt
  /\ trace_of prompt_reply COM7
     = sequence (lit "COM7") 1700000000 (Some (lit "OK 1700000000")).
Proof.
  assert (Hf : faultless prompt_reply (lit "COM7")).
  { split; [intros ev _ _; reflexivity | intros _; vm_compute; discriminate]. }
  split; [reflexivity|]. split; [discriminate|]. split; [exact Hf|].
  destruct (steps_in_order prompt_reply COM7 (lit "COM7")
              eq_refl ltac:(discriminate) Hf) as [Hret Hseq].
  split; [exact Hret|]. rewrite Hseq. vm_compute. reflexivity.
Defined.

(** * Further properties of the hook *)

(** ** Errors that are not exceptions *)

(** An error outside the class [Exception] raised by any call of the guarded
    block leaves the hook: the run ends at that call, the error reaches the
    caller, and neither terminal line is printed. *)
Theorem base_exceptions_escape (w : world) (env : gmap string str) (p : str)
    (c : event) (x : exc) :
  env !! "UPLOAD_PORT"%string = Some p -> p <> [] ->
  In c (trace_of w env) -> is_print c = false -> is_time c = false ->
  w_fault w c = Some x -> is_Exception (exc_class_of x) = false ->
  fst (run w env) = Raise x
  /\ List.last (trace_of w env) EvTime = c
  /\ count prints_done (trace_of w env) = 0%nat
  /\ count prints_failed (trace_of w env) = 0%nat.
Proof.
  intros Hp Hne Hin Hpr Htm Hev Hbase.
  run_cases w env p Hp Hne; unfold quiet in Hq; rewrite Htr in Hin |- *;
    cbn [In] in Hin;
    repeat (destruct Hin as [<-|Hin];
            [first [ discriminate Hpr | discriminate Htm
                   | rewrite Hq in Hev by (first [in_list | reflexivity]);
                     discriminate Hev
                   | rewrite Hf in Hev; injection Hev as <-;
                     first [ congruence
                           | rewrite Hout; count_lines; repeat split ] ]|]);
    contradiction.
Qed.

Lemma base_exceptions_escape_witness :
  COM7 !! "UPLOAD_PORT"%string = Some (lit "COM7")
  /\ lit "COM7" <> []
  /\ In (EvSleep 3) (trace_of ctrl_c COM7)
  /\ w_fault ctrl_c (EvSleep 3) = Some interrupted
  /\ is_Exception (exc_class_of interrupted) = false
  /\ fst (run ctrl_c COM7) = Raise interrupted
  /\ List.last (trace_of ctrl_c COM7) EvTime = EvSleep 3
  /\ count prints_done (trace_of ctrl_c COM7) = 0%nat
  /\ count prints_failed (trace_of ctrl_c COM7) = 0%nat.
Proof.
  assert (Hin : In (EvSleep 3) (trace_of ctrl_c COM7))
    by (vm_compute; tauto).
  split; [reflexivity|]. split; [discriminate|]. split; [exact Hin|].
  split; [reflexivity|]. split; [reflexivity|].
  apply (base_exceptions_escape ctrl_c COM7 (lit "COM7") (EvSleep 3) interrupted);
    [reflexivity | discriminate | exact Hin | reflexivity | reflexivity
    | reflexivity | reflexivity].
Defined.

(** ** What the hook never does *)

(** The hook opens no port but the configured one, under the name it was
    given and with the fixed baud rate and timeout, and it tries nothing
    twice: at most one opening, one write, one flush, one look at the input
    buffer, one read and one closing, and never more than the three
    pauses. *)
Theorem one_port_no_retry (w : world) (env : gmap string str) (p : str) :
  env !! "UPLOAD_PORT"%string = Some p -> p <> [] ->
  (forall q baud tmo, In (EvOpen q baud tmo) (trace_of w env) ->
     q = p /\ baud = 115200 /\ tmo = 2%Q)
  /\ (count is_open (trace_of w env) <= 1)%nat
  /\ (count is_write (trace_of w env) <= 1)%nat
  /\ (count is_in_waiting (trace_of w env) <= 1)%nat
  /\ (count is_readline (trace_of w env) <= 1)%nat
  /\ (count is_close (trace_of w env) <= 1)%nat
  /\ (count is_sleep (trace_of w env) <= 3)%nat.
Proof.
  intros Hp Hne.
  run_cases w env p Hp Hne; rewrite Htr; (split; [|
    rewrite ?count_cons, ?count_nil;
    cbn [is_open is_write is_in_waiting is_readline is_close is_sleep Nat.add];
    repeat split; lia ]);
    intros q baud tmo Hin; cbn [In] in Hin;
    repeat (destruct Hin as [Hin|Hin];
            [first [discriminate Hin | injection Hin as <- <- <-; repeat split]|]);
    contradiction.
Qed.

Lemma one_port_no_retry_witness :
  COM7 !! "UPLOAD_PORT"%string = Some (lit "COM7")
  /\ lit "COM7" <> []
  /\ In (EvOpen (lit "COM7") 115200 2) (trace_of calm COM7)
  /\ (count is_open (trace_of calm COM7) <= 1)%nat
  /\ (count is_sleep (trace_of calm COM7) <= 3)%nat.
Proof.
  split; [reflexivity|]. split; [discriminate|].
  split; [vm_compute; tauto|].
  destruct (one_port_no_retry calm COM7 (lit "COM7") eq_refl ltac:(discriminate))
    as (_ & Ho & _ & _ & _ & _ & Hs).
  split; [exact Ho | exact Hs].
Defined.

(** ** The console *)

(** With a port configured the console shows the first line, then at most
    one reply line, then at most one terminal line, in this order: one to
    three lines, in one of five shapes. *)
Theorem console_shapes (w : world) (env : gmap string str) (p : str) :
  env !! "UPLOAD_PORT"%string = Some p -> p <> [] ->
  let first := setting_line (epoch_of w) in
  printed (trace_of w env) = [first]
  \/ printed (trace_of w env) = [first; done_line]
  \/ (exists d, printed (trace_of w env) = [first; failed_line d])
  \/ (exists text,
        decode (reply_bytes w) = Some text
        /\ (printed (trace_of w env) = [first; response_line (strip text)]
            \/ printed (trace_of w env)
               = [first; response_line (strip text); done_line]
            \/ exists d,
                 printed (trace_of w env)
                 = [first; response_line (strip text); failed_line d])).
Proof.
  intros Hp Hne first. subst first.
  run_cases w env p Hp Hne; rewrite Htr; cbn [printed flat_map app];
    first [ left; reflexivity
          | right; left; reflexivity
          | right; right; left; eexists; reflexivity
          | right; right; right; exists text; split;
            [first [assumption | reflexivity]|];
            first [ left; reflexivity
                  | right; left; reflexivity
                  | right; right; eexists; reflexivity ] ].
Qed.

Lemma console_shapes_witness :
  COM7 !! "UPLOAD_PORT"%string = Some (lit "COM7")
  /\ lit "COM7" <> []
  /\ (let first := setting_line (epoch_of prompt_reply) in
      printed (trace_of prompt_reply COM7) = [first]
      \/ printed (trace_of prompt_reply COM7) = [first; done_line]
      \/ (exists d, printed (trace_of prompt_reply COM7) = [first; failed_line d])
      \/ (exists text,
            decode (reply_bytes prompt_reply) = Some text
            /\ (printed (trace_of prompt_reply COM7)
                = [first; response_line (strip text)]
                \/ printed (trace_of prompt_reply COM7)
                   = [first; response_line (strip text); done_line]
                \/ exists d,
                     printed (trace_of prompt_reply COM7)
                     = [first; response_line (strip text); failed_line d]))).
Proof.
  split; [reflexivity|]. split; [discriminate|].
  apply (console_shapes prompt_reply COM7 (lit "COM7")); [reflexivity | discriminate].
Defined.

(** ** The pauses before the command *)

(** The clock is read before any pause, and the command carries that
    reading: whenever the command is written, no pause precedes the reading
    of the clock, the pauses before the opening of the port sum to 3
    seconds and those before the write to 4 (4.5 before the look at the
    input buffer, when the run gets there), and the octets written are the
    command for the epoch read at the start.  The figures are time spent
    pausing; the calls take time of their own. *)
Theorem pauses_before_command (w : world) (env : gmap string str) (p : str)
    (d : bytes) :
  env !! "UPLOAD_PORT"%string = Some p -> p <> [] ->
  In (EvWrite d) (trace_of w env) ->
  pauses_until is_time (trace_of w env) = Some 0%Q
  /\ pauses_until is_open (trace_of w env) = Some 3%Q
  /\ pauses_until is_write (trace_of w env) = Some 4%Q
  /\ (pauses_until is_in_waiting (trace_of w env) = None
      \/ pauses_until is_in_waiting (trace_of w env) = Some check_instant)
  /\ d = settime_bytes (epoch_of w).
Proof.
  intros Hp Hne Hin.
  run_cases w env p Hp Hne; rewrite Htr in Hin |- *; cbn [In] in Hin;
    repeat (destruct Hin as [Hin|Hin]; [try discriminate Hin|]);
    try contradiction;
    (split; [reflexivity|]); (split; [reflexivity|]); (split; [reflexivity|]);
    (split; [first [left; reflexivity | right; reflexivity]|]);
    now injection Hin as <-.
Qed.

Lemma pauses_before_command_witness :
  COM7 !! "UPLOAD_PORT"%string = Some (lit "COM7")
  /\ lit "COM7" <> []
  /\ In (EvWrite (settime_bytes 1700000000)) (trace_of calm COM7)
  /\ pauses_until is_time (trace_of calm COM7) = Some 0%Q
  /\ pauses_until is_open (trace_of calm COM7) = Some 3%Q
  /\ pauses_until is_write (trace_of calm COM7) = Some 4%Q
  /\ pauses_until is_in_waiting (trace_of calm COM7) = Some check_instant.
Proof.
  assert (Hin : In (EvWrite (settime_bytes 1700000000)) (trace_of calm COM7))
    by (vm_compute; tauto).
  split; [reflexivity|]. split; [discriminate|]. split; [exact Hin|].
  destruct (pauses_before_command calm COM7 (lit "COM7")
              (settime_bytes 1700000000) eq_refl ltac:(discriminate) Hin)
    as (Ht & Ho & Hw & Hc & _).
  split; [exact Ht|]. split; [exact Ho|]. split; [exact Hw|].
  destruct Hc as [Hc|Hc]; [|exact Hc].
  exfalso. vm_compute in Hc. discriminate Hc.
Defined.

(** ** The state a clean run leaves behind *)

(** A fault the hypothesis [H] rules out. *)
Ltac no_fault H ev :=
  match goal with
  | w : world |- _ =>
      let F := fresh "F" in
      assert (F : w_fault w ev = None) by (apply H; [in_list | reflexivity]);
      rewrite F; exec
  end.

(** When no step raises, the hook leaves the port closed, has handed it the
    command and nothing else, and has taken from the device's output the one
    line it read, if it read. *)
Lemma faultless_final_state (w : world) (env : gmap string str) (p : str) :
  env !! "UPLOAD_PORT"%string = Some p -> p <> [] ->
  faultless w p ->
  snd (run w env)
  = {| st_elapsed :=
         if (0 <? pending w)%N
         then snd (fst (read_line 2 check_instant (w_rx w)))
         else check_instant;
       st_trace := sequence p (epoch_of w) (logged_reply w);
       st_is_open := false;
       st_rx :=
         if (0 <? pending w)%N
         then snd (read_line 2 check_instant (w_rx w))
         else w_rx w;
       st_tx := settime_bytes (epoch_of w) |}.
Proof.
  intros Hp Hne [Hquiet Hdec]. unfold run, after_upload. rewrite Hp.
  destruct p as [|c p']; [contradiction|]. set (p := c :: p') in *.
  unfold logged_reply, sequence, prologue, transmit, epilogue, setting_line,
    epoch_of, reply_bytes.
  unfold quiet, calls, transmit, epilogue, reply_bytes, epoch_of in Hquiet.
  unfold reply_bytes in Hdec.
  exec. rewrite !Qplus_0_r_eq, encode_settime. exec.
  set (E := int (w_time w)) in *.
  destruct (0 <? pending w)%N eqn:Hn; cbn [app] in Hquiet.
  - apply N.ltb_lt in Hn as Hpos. specialize (Hdec Hpos).
    destruct (read_line 2 check_instant (w_rx w)) as [[line fin] rest] eqn:Hrl.
    cbn [fst snd] in *.
    destruct (decode line) as [text|] eqn:Hd; [|now destruct Hdec].
    no_fault Hquiet (EvSleep 3). no_fault Hquiet (EvOpen p 115200 2).
    no_fault Hquiet (EvSleep 1). no_fault Hquiet (EvWrite (settime_bytes E)).
    no_fault Hquiet EvFlush. no_fault Hquiet (EvSleep (1 # 2)).
    no_fault Hquiet EvInWaiting.
    change (buffered _ (w_rx w)) with (pending w). rewrite Hn. exec.
    no_fault Hquiet EvReadline.
    change (read_line _ _ (w_rx w)) with (read_line 2 check_instant (w_rx w)).
    rewrite Hrl. exec. rewrite Hd. exec.
    no_fault Hquiet EvClose. reflexivity.
  - no_fault Hquiet (EvSleep 3). no_fault Hquiet (EvOpen p 115200 2).
    no_fault Hquiet (EvSleep 1). no_fault Hquiet (EvWrite (settime_bytes E)).
    no_fault Hquiet EvFlush. no_fault Hquiet (EvSleep (1 # 2)).
    no_fault Hquiet EvInWaiting.
    change (buffered _ (w_rx w)) with (pending w). rewrite Hn. exec.
    no_fault Hquiet EvClose. reflexivity.
Qed.

(** A clean run with a silent device has paused for 4.5 seconds in all when
    it returns; it has handed the port the command and nothing else, has
    left whatever the device sends later unread, and has closed the port. *)
Theorem silent_run_final_state (w : world) (env : gmap string str) (p : str) :
  env !! "UPLOAD_PORT"%string = Some p -> p <> [] ->
  quiet w (transmit p (epoch_of w) ++ epilogue) ->
  pending w = 0%N ->
  st_elapsed (snd (run w env)) = (9 # 2)%Q
  /\ st_tx (snd (run w env)) = settime_bytes (epoch_of w)
  /\ st_rx (snd (run w env)) = w_rx w
  /\ st_is_open (snd (run w env)) = false.
Proof.
  intros Hp Hne Hquiet H0.
  assert (Hf : faultless w p).
  { split; [|rewrite H0; intros H; now apply N.lt_irrefl in H].
    unfold calls. now rewrite H0. }
  rewrite (faultless_final_state w env p Hp Hne Hf). rewrite H0.
  repeat split.
Qed.

Lemma silent_run_final_state_witness :
  COM7 !! "UPLOAD_PORT"%string = Some (lit "COM7")
  /\ lit "COM7" <> []
  /\ quiet late_reply (transmit (lit "COM7") (epoch_of late_reply) ++ epilogue)
  /\ pending late_reply = 0%N
  /\ st_elapsed (snd (run late_reply COM7)) = (9 # 2)%Q
  /\ st_tx (snd (run late_reply COM7)) = settime_bytes (epoch_of late_reply)
  /\ st_rx (snd (run late_reply COM7)) = w_rx late_reply
  /\ st_is_open (snd (run late_reply COM7)) = false.
Proof.
  assert (Hq : quiet late_reply
                 (transmit (lit "COM7") (epoch_of late_reply) ++ epilogue))
    by (intros ev _ _; reflexivity).
  split; [reflexivity|]. split; [discriminate|]. split; [exact Hq|].
  split; [reflexivity|].
  apply (silent_run_final_state late_reply COM7 (lit "COM7"));
    [reflexivity | discriminate | exact Hq | reflexivity].
Defined.

(** When a reply is read in a clean run, exactly one line is taken from the
    device's output: the line read followed by what is left unread is that
    output, octet for octet; the line is not empty and has a line feed, if
    any, only as its last octet.  Whatever follows the first line is never
    read. *)
Theorem one_line_taken (w : world) (env : gmap string str) (p : str) :
  env !! "UPLOAD_PORT"%string = Some p -> p <> [] ->
  faultless w p -> (0 < pending w)%N ->
  map snd (w_rx w) = reply_bytes w ++ map snd (st_rx (snd (run w env)))
  /\ reply_bytes w <> []
  /\ (forall l1 l2, reply_bytes w = l1 ++ x0a :: l2 -> l2 = [])
  /\ count is_readline (trace_of w env) = 1%nat.
Proof.
  intros Hp Hne Hf Hpos.
  rewrite (faultless_final_state w env p Hp Hne Hf).
  apply N.ltb_lt in Hpos as Hn. rewrite Hn. cbn [st_rx].
  split; [apply read_line_prefix|]. split; [now apply reply_bytes_nonempty|].
  split; [intros l1 l2; apply read_line_one_line|].
  unfold trace_of. rewrite (faultless_final_state w env p Hp Hne Hf).
  cbn [st_trace]. unfold logged_reply. rewrite Hn.
  destruct Hf as [_ Hdec]. specialize (Hdec Hpos).
  destruct (decode (reply_bytes w)); [reflexivity | now destruct Hdec].
Qed.

Lemma one_line_taken_witness :
  COM7 !! "UPLOAD_PORT"%string = Some (lit "COM7")
  /\ lit "COM7" <> []
  /\ faultless prompt_reply (lit "COM7")
  /\ (0 < pending prompt_reply)%N
  /\ map snd (w_rx prompt_reply)
     = reply_bytes prompt_reply ++ map snd (st_rx (snd (run prompt_reply COM7)))
  /\ map snd (st_rx (snd (run prompt_reply COM7))) = list_byte_of_string "next".
Proof.
  assert (Hf : faultless prompt_reply (lit "COM7")).
  { split; [intros ev _ _; reflexivity | intros _; vm_compute; discriminate]. }
  split; [reflexivity|]. split; [discriminate|]. split; [exact Hf|].
  split; [reflexivity|].
  split; [|vm_compute; reflexivity].
  exact (proj1 (one_line_taken prompt_reply COM7 (lit "COM7")
                  eq_refl ltac:(discriminate) Hf eq_refl)).
Defined.

(** ** A blank reply *)

Lemma lstrip_all_space (s : str) : forallb isspace s = true -> lstrip s = [].
Proof.
  induction s as [|c s IH]; simpl; [reflexivity|].
  intros H. apply andb_prop in H as [Hc Hs]. rewrite Hc. now apply IH.
Qed.

Lemma strip_all_space (s : str) : forallb isspace s = true -> strip s = [].
Proof. intros H. unfold strip, rstrip. now rewrite (lstrip_all_space s H). Qed.

(** A reply made of whitespace only, a bare carriage return and line feed
    for instance, is logged as the prefix alone: [[RTC] ] with nothing
    after the space. *)
Theorem blank_reply_logs_prefix (w : world) (env : gmap string str) (p : str)
    (t : str) :
  env !! "UPLOAD_PORT"%string = Some p -> p <> [] ->
  quiet w (transmit p (epoch_of w) ++ [EvReadline]) ->
  (0 < pending w)%N ->
  decode (reply_bytes w) = Some t -> forallb isspace t = true ->
  In (EvPrint (lit "[RTC] ")) (trace_of w env)
  /\ count prints_response (trace_of w env) = 1%nat.
Proof.
  intros Hp Hne Hquiet Hpos Hdec Hblank.
  unfold quiet, transmit in Hquiet. cbn [app] in Hquiet.
  apply N.ltb_lt in Hpos.
  run_cases w env p Hp Hne;
    try discriminate Hpos; try (rewrite Hpos in Hn; discriminate Hn);
    try (not_quiet Hquiet Hf); try congruence;
    injection Hdec as ->; rewrite Htr;
    (split; [|count_replies; reflexivity]);
    rewrite (strip_all_space t Hblank); in_list.
Qed.

Lemma blank_reply_logs_prefix_witness :
  COM7 !! "UPLOAD_PORT"%string = Some (lit "COM7")
  /\ lit "COM7" <> []
  /\ quiet blank_reply (transmit (lit "COM7") (epoch_of blank_reply) ++ [EvReadline])
  /\ (0 < pending blank_reply)%N
  /\ decode (reply_bytes blank_reply) = Some [13%N; 10%N]
  /\ forallb isspace [13%N; 10%N] = true
  /\ In (EvPrint (lit "[RTC] ")) (trace_of blank_reply COM7)
  /\ count prints_response (trace_of blank_reply COM7) = 1%nat.
Proof.
  assert (Hq : quiet blank_reply
                 (transmit (lit "COM7") (epoch_of blank_reply) ++ [EvReadline]))
    by (intros ev _ _; reflexivity).
  assert (Hd : decode (reply_bytes blank_reply) = Some [13%N; 10%N])
    by (vm_compute; reflexivity).
  split; [reflexivity|]. split; [discriminate|]. split; [exact Hq|].
  split; [reflexivity|]. split; [exact Hd|]. split; [reflexivity|].
  apply (blank_reply_logs_prefix blank_reply COM7 (lit "COM7") [13%N; 10%N]);
    [reflexivity | discriminate | exact Hq | reflexivity | exact Hd | reflexivity].
Defined.

(** ** The command on the wire *)

Lemma to_N_byte_of_ascii (c : ascii) : Byte.to_N (byte_of_ascii c) = N_of_ascii c.
Proof. apply Byte.to_of_N. symmetry. apply byte_of_ascii_via_N. Qed.

(** ASCII octets decode to the text they spell. *)
Lemma decode_ascii (s : string) :
  ascii_only s -> decode (list_byte_of_string s) = Some (lit s).
Proof.
  unfold ascii_only, lit, list_byte_of_string.
  induction s as [|c s IH]; simpl; intros H; [reflexivity|].
  inversion H as [|? ? Hc Hs]; subst.
  rewrite to_N_byte_of_ascii. apply N.ltb_lt in Hc. rewrite Hc.
  now rewrite (IH Hs).
Qed.

Lemma numeral_chars_uint (d : uint) :
  Forall numeral_char (list_ascii_of_string (NilEmpty.string_of_uint d)).
Proof.
  induction d; simpl; constructor; try assumption; unfold numeral_char; simpl; tauto.
Qed.

Lemma numeral_chars_int (d : Decimal.int) :
  Forall numeral_char (list_ascii_of_string (NilZero.string_of_int d)).
Proof.
  assert (Hu : forall u,
             Forall numeral_char (list_ascii_of_string (NilZero.string_of_uint u))).
  { intros u. destruct u; try apply numeral_chars_uint.
    repeat constructor. }
  destruct d as [u|u]; simpl; [apply Hu|].
  constructor; [unfold numeral_char; simpl; tauto | apply Hu].
Qed.

Lemma list_ascii_of_string_app (a b : string) :
  list_ascii_of_string (a ++ b) = list_ascii_of_string a ++ list_ascii_of_string b.
Proof. induction a as [|x a IH]; simpl; [reflexivity|]. now rewrite IH. Qed.

Lemma decode_settime (epoch : Z) :
  decode (settime_bytes epoch) = Some (lit "SETTIME:" ++ str_int epoch ++ LF).
Proof.
  unfold settime_bytes, settime_text, str_int.
  rewrite LF_lit, <- !lit_app. apply decode_ascii.
  apply ascii_only_app; [repeat constructor|].
  apply ascii_only_app; [apply ascii_only_int | repeat constructor].
Qed.

(** The octets of the command before its line feed. *)
Lemma settime_bytes_body (epoch : Z) :
  settime_bytes epoch
  = list_byte_of_string ("SETTIME:" ++ NilZero.string_of_int (Z.to_int epoch))
    ++ [x0a].
Proof.
  unfold settime_bytes, settime_text, list_byte_of_string, newline.
  rewrite (list_ascii_of_string_app "SETTIME:"),
    (list_ascii_of_string_app (NilZero.string_of_int _)).
  rewrite !map_app, app_assoc. rewrite <- map_app, <- list_ascii_of_string_app.
  reflexivity.
Qed.

Lemma settime_body_chars (epoch : Z) (c : ascii) :
  In c (list_ascii_of_string
          ("SETTIME:" ++ NilZero.string_of_int (Z.to_int epoch))) ->
  In c (list_ascii_of_string "SETTIME:0123456789-").
Proof.
  rewrite list_ascii_of_string_app. intros Hin.
  apply in_app_or in Hin as [Hin|Hin].
  - simpl in Hin |- *. tauto.
  - pose proof (numeral_chars_int (Z.to_int epoch)) as Hnum.
    rewrite List.Forall_forall in Hnum. specialize (Hnum _ Hin).
    unfold numeral_char in Hnum. simpl in Hnum |- *. tauto.
Qed.

(** What is sent is one line: the octets decode back to the text
    [SETTIME:], the numeral, a line feed; the numeral read as a decimal
    number is the epoch again; and the only line feed is the last octet, so
    a receiver that reads up to the line feed gets the command whole and
    nothing is left over. *)
Theorem command_is_one_line (epoch : Z) :
  decode (settime_bytes epoch) = Some (lit "SETTIME:" ++ str_int epoch ++ LF)
  /\ option_map Z.of_int
       (NilZero.int_of_string (NilZero.string_of_int (Z.to_int epoch)))
     = Some epoch
  /\ exists body,
       settime_bytes epoch = body ++ [x0a] /\ ~ In x0a body
       /\ body = list_byte_of_string
                   ("SETTIME:" ++ NilZero.string_of_int (Z.to_int epoch)).
Proof.
  split; [apply decode_settime|]. split; [apply settime_numeral_reads_back|].
  eexists. split; [apply settime_bytes_body|]. split; [|reflexivity].
  unfold list_byte_of_string. rewrite in_map_iff. intros (c & Hc & Hin).
  assert (Hlf : c = ascii_of_nat 10)
    by (rewrite <- (ascii_of_byte_of_ascii c), Hc; reflexivity).
  subst c. apply settime_body_chars in Hin. simpl in Hin.
  repeat (destruct Hin as [Hin|Hin]; [discriminate Hin|]). contradiction.
Qed.

(** ** Encoding and decoding *)

Lemma to_N_octet (n : N) : (n <= 255)%N -> Byte.to_N (octet n) = n.
Proof.
  intros Hn. unfold octet.
  destruct (Byte.of_N n) as [b|] eqn:Hb.
  - now apply Byte.to_of_N.
  - apply Byte.of_N_None_iff in Hb. lia.
Qed.

(** Rewriting a comparison of numbers by its value. *)
Ltac ltb_true := rewrite (proj2 (N.ltb_lt _ _)) by lia.
Ltac ltb_false := rewrite (proj2 (N.ltb_ge _ _)) by lia.
Ltac leb_true := rewrite (proj2 (N.leb_le _ _)) by lia.
Ltac leb_false := rewrite (proj2 (N.leb_gt _ _)) by lia.

Lemma is_cont_octet (r : N) : (r < 0x40)%N -> is_cont (octet (0x80 + r)) = true.
Proof.
  intros Hr. unfold is_cont. rewrite to_N_octet by lia.
  apply andb_true_intro. split; apply N.leb_le; lia.
Qed.

Lemma cont_octet (r : N) : (r < 0x40)%N -> cont (octet (0x80 + r)) = r.
Proof. intros Hr. unfold cont. rewrite to_N_octet by lia. lia. Qed.

(** The octets of one code point, put before any octets, decode to that
    code point before what the rest decodes to. *)
Lemma decode_encode_char (c : N) (bs rest : bytes) :
  encode_char c = Some bs ->
  decode (bs ++ rest) = option_map (cons c) (decode rest).
Proof.
  unfold encode_char.
  pose proof (N.div_mod c 0x40 ltac:(lia)) as D0.
  pose proof (N.mod_lt c 0x40 ltac:(lia)) as L0.
  pose proof (N.div_mod (c / 0x40) 0x40 ltac:(lia)) as D1.
  pose proof (N.mod_lt (c / 0x40) 0x40 ltac:(lia)) as L1.
  pose proof (N.div_mod (c / 0x40 / 0x40) 0x40 ltac:(lia)) as D2.
  pose proof (N.mod_lt (c / 0x40 / 0x40) 0x40 ltac:(lia)) as L2.
  replace (c / 0x1000)%N with (c / 0x40 / 0x40)%N
    by (rewrite N.Div0.div_div; reflexivity).
  replace (c / 0x40000)%N with (c / 0x40 / 0x40 / 0x40)%N
    by (rewrite !N.Div0.div_div; reflexivity).
  set (r0 := (c mod 0x40)%N) in *. set (q0 := (c / 0x40)%N) in *.
  set (r1 := (q0 mod 0x40)%N) in *. set (q1 := (q0 / 0x40)%N) in *.
  set (r2 := (q1 mod 0x40)%N) in *. set (q2 := (q1 / 0x40)%N) in *.
  clearbody r0 q0 r1 q1 r2 q2.
  destruct (N.ltb_spec c 0x80) as [H1|H1].
  { intros H. injection H as <-. cbn [app decode].
    rewrite to_N_octet by lia. now ltb_true. }
  destruct (N.ltb_spec c 0x800) as [H2|H2].
  { intros H. injection H as <-. cbn [app decode].
    rewrite (to_N_octet (0xC0 + q0)) by lia.
    ltb_false. ltb_false. ltb_true.
    rewrite is_cont_octet, cont_octet by lia.
    replace ((0xC0 + q0 - 0xC0) * 0x40 + r0)%N with c by lia. reflexivity. }
  destruct (N.ltb_spec c 0x10000) as [H3|H3].
  { unfold is_surrogate.
    destruct (N.leb_spec 0xD800 c) as [S1|S1];
      [destruct (N.leb_spec c 0xDFFF) as [S2|S2]; [discriminate|]|];
      cbn [andb]; intros H; injection H as <-; cbn [app decode];
      rewrite (to_N_octet (0xE0 + q1)) by lia;
      ltb_false; ltb_false; ltb_false; ltb_true;
      rewrite !is_cont_octet, !cont_octet by lia;
      replace ((0xE0 + q1 - 0xE0) * 0x1000 + r1 * 0x40 + r0)%N with c by lia;
      cbn [andb]; leb_true; unfold is_surrogate.
    - leb_true. leb_false. reflexivity.
    - leb_false. reflexivity. }
  destruct (N.ltb_spec c 0x110000) as [H4|H4]; [|discriminate].
  intros H. injection H as <-. cbn [app decode].
  rewrite (to_N_octet (0xF0 + q2)) by lia.
  ltb_false. ltb_false. ltb_false. ltb_false. ltb_true.
  rewrite !is_cont_octet, !cont_octet by lia.
  replace ((0xF0 + q2 - 0xF0) * 0x40000 + r2 * 0x1000 + r1 * 0x40 + r0)%N
    with c by lia.
  cbn [andb]. leb_true. ltb_true. reflexivity.
Qed.

(** Round trip of the two codec calls of the hook, [encode] for the command
    and [decode] for the reply: whatever text [encode] accepts, [decode]
    reads back from the octets, and nothing else. *)
Theorem decode_encode (s : str) (bs : bytes) :
  encode s = Some bs -> decode bs = Some s.
Proof.
  revert bs. induction s as [|c s IH]; intros bs; simpl.
  - intros H. now injection H as <-.
  - destruct (encode_char c) as [bc|] eqn:Hc; [|discriminate].
    destruct (encode s) as [bs'|]; [|discriminate].
    intros H. injection H as <-.
    rewrite (decode_encode_char c bc bs' Hc). now rewrite (IH bs' eq_refl).
Qed.

(** ** An echoing device *)

(** A line all of whose octets have arrived is read whole, up to and with
    its line feed. *)
Lemma read_line_arrived (timeout now t : Q) (body : bytes) (rest : list (Q * byte)) :
  (0 <= timeout)%Q -> (t <= now)%Q -> ~ In x0a body ->
  fst (fst (read_line timeout now
              (map (fun b => (t, b)) (body ++ [x0a]) ++ rest)))
  = body ++ [x0a].
Proof.
  intros Ht Hnow. induction body as [|b body IH]; intros Hlf; simpl.
  - assert (H1 : Qle_bool t (now + timeout) = true)
      by (apply Qle_bool_iff; lra).
    rewrite H1. reflexivity.
  - assert (H1 : Qle_bool t (now + timeout) = true)
      by (apply Qle_bool_iff; lra).
    assert (H2 : Qle_bool t now = true) by (now apply Qle_bool_iff).
    rewrite H1, H2.
    destruct (Byte.eqb b x0a) eqn:Hb.
    + apply Byte.byte_dec_bl in Hb. subst b. exfalso. apply Hlf. now left.
    + specialize (IH (fun H => Hlf (or_intror H))). simpl in IH.
      destruct (read_line timeout now _) as [[l f] r]. simpl in *. now rewrite IH.
Qed.

(** Text without whitespace is what [strip] leaves of it and a line feed. *)
Lemma strip_line (body : str) :
  Forall (fun c => isspace c = false) body -> body <> [] ->
  strip (body ++ LF) = body.
Proof.
  intros Hns Hne. unfold strip, rstrip.
  assert (Hl : forall s : str, Forall (fun c => isspace c = false) s ->
                 forall u, s <> [] -> lstrip (s ++ u) = s ++ u).
  { intros [|c s] Hs u Hnil; [contradiction|]. simpl.
    inversion Hs as [|? ? Hc _]; subst. now rewrite Hc. }
  rewrite (Hl body Hns LF Hne). unfold LF. rewrite rev_unit. simpl.
  assert (Hr : Forall (fun c => isspace c = false) (rev body)).
  { rewrite List.Forall_forall in *. intros x Hx. apply Hns. now apply in_rev. }
  assert (Hrn : rev body <> []).
  { intros H. apply Hne. rewrite <- (rev_involutive body), H. reflexivity. }
  pose proof (Hl (rev body) Hr [] Hrn) as H. rewrite !app_nil_r in H.
  rewrite H. apply rev_involutive.
Qed.

Lemma settime_text_no_space (epoch : Z) :
  Forall (fun c => isspace c = false) (lit "SETTIME:" ++ str_int epoch).
Proof.
  unfold str_int. rewrite <- lit_app. unfold lit.
  rewrite List.Forall_forall. intros x Hx. apply in_map_iff in Hx as (c & <- & Hc).
  apply settime_body_chars in Hc. simpl in Hc.
  repeat (destruct Hc as [<-|Hc]; [reflexivity|]). contradiction.
Qed.

(** End to end: when the device sends the command back and the line is in
    the input buffer by the time the hook looks, the reply line logged is
    the command without its line feed, [SETTIME:] and the numeral of the
    epoch, and the run completes.  Encoding, the read of one line, decoding
    and stripping undo one another. *)
Theorem echo_is_logged (w : world) (env : gmap string str) (p : str)
    (t : Q) (more : list (Q * byte)) :
  env !! "UPLOAD_PORT"%string = Some p -> p <> [] ->
  quiet w (transmit p (epoch_of w) ++ EvReadline :: epilogue) ->
  w_rx w = map (fun b => (t, b)) (settime_bytes (epoch_of w)) ++ more ->
  (t <= check_instant)%Q ->
  fst (run w env) = Return tt
  /\ printed (trace_of w env)
     = [setting_line (epoch_of w);
        response_line (lit "SETTIME:" ++ str_int (epoch_of w));
        done_line].
Proof.
  intros Hp Hne Hquiet Hrx Ht.
  assert (Hbytes : reply_bytes w = settime_bytes (epoch_of w)).
  { unfold reply_bytes. rewrite Hrx, settime_bytes_body.
    apply read_line_arrived; [unfold Qle; simpl; lia | exact Ht|].
    unfold list_byte_of_string. rewrite in_map_iff. intros (c & Hc & Hin).
    assert (Hlf : c = ascii_of_nat 10)
      by (rewrite <- (ascii_of_byte_of_ascii c), Hc; reflexivity).
    subst c. apply settime_body_chars in Hin. simpl in Hin.
    repeat (destruct Hin as [Hin|Hin]; [discriminate Hin|]). contradiction. }
  assert (Hpos : (0 <? pending w)%N = true).
  { apply N.ltb_lt, pending_iff. rewrite Hrx, settime_bytes_body. simpl.
    eexists _, _, _. split; [reflexivity | exact Ht]. }
  assert (Hdec : decode (reply_bytes w)
                 = Some ((lit "SETTIME:" ++ str_int (epoch_of w)) ++ LF)).
  { rewrite Hbytes, decode_settime. now rewrite <- app_assoc. }
  assert (Hstrip : strip ((lit "SETTIME:" ++ str_int (epoch_of w)) ++ LF)
                   = lit "SETTIME:" ++ str_int (epoch_of w)).
  { apply strip_line; [apply settime_text_no_space | discriminate]. }
  unfold quiet, transmit, epilogue in Hquiet. cbn [app] in Hquiet.
  run_cases w env p Hp Hne;
    try discriminate Hpos; try (rewrite Hpos in Hn; discriminate Hn);
    try (not_quiet Hquiet Hf); try congruence.
  assert (Htext : text = (lit "SETTIME:" ++ str_int (epoch_of w)) ++ LF)
    by congruence.
  subst text. rewrite Htr. cbn [printed flat_map app].
  rewrite Hstrip. split; [exact Hout | reflexivity].
Qed.

Lemma echo_is_logged_witness :
  COM7 !! "UPLOAD_PORT"%string = Some (lit "COM7")
  /\ lit "COM7" <> []
  /\ quiet echo (transmit (lit "COM7") (epoch_of echo) ++ EvReadline :: epilogue)
  /\ w_rx echo
     = map (fun b => (4%Q, b)) (settime_bytes (epoch_of echo)) ++ arriving 6 "boot"
  /\ (4 <= check_instant)%Q
  /\ fst (run echo COM7) = Return tt
  /\ printed (trace_of echo COM7)
     = [setting_line (epoch_of echo);
        response_line (lit "SETTIME:" ++ str_int (epoch_of echo));
        done_line].
Proof.
  assert (Hq : quiet echo
                 (transmit (lit "COM7") (epoch_of echo) ++ EvReadline :: epilogue))
    by (intros ev _ _; reflexivity).
  assert (Hrx : w_rx echo
                = map (fun b => (4%Q, b)) (settime_bytes (epoch_of echo))
                  ++ arriving 6 "boot") by (vm_compute; reflexivity).
  assert (Ht : (4 <= check_instant)%Q) by (vm_compute; discriminate).
  split; [reflexivity|]. split; [discriminate|]. split; [exact Hq|].
  split; [exact Hrx|]. split; [exact Ht|].
  apply (echo_is_logged echo COM7 (lit "COM7") 4%Q (arriving 6 "boot"));
    [reflexivity | discriminate | exact Hq | exact Hrx | exact Ht].
Defined.

Lemma decode_encode_witness :
  encode [0x53; 0xE9; 0x20AC; 0x1F552]%N
  = Some [x53; xc3; xa9; xe2; x82; xac; xf0; x9f; x95; x92]
  /\ decode [x53; xc3; xa9; xe2; x82; xac; xf0; x9f; x95; x92]
     = Some [0x53; 0xE9; 0x20AC; 0x1F552]%N.
Proof.
  split; [reflexivity|].
  apply (decode_encode [0x53; 0xE9; 0x20AC; 0x1F552]%N). reflexivity.
Defined.

(** ** The date in the first log line *)

Lemma all_from_spec (f : Z -> bool) (k : nat) (lo : Z) :
  all_from f k lo = true ->
  forall v, lo <= v < lo + 2 ^ Z.of_nat k -> f v = true.
Proof.
  revert lo. induction k as [|k IH]; intros lo H v Hv.
  - simpl in *. replace v with lo by lia. exact H.
  - cbn [all_from] in H. apply andb_prop in H as [H1 H2].
    rewrite Nat2Z.inj_succ, Z.pow_succ_r in Hv by lia.
    destruct (Z.lt_ge_cases v (lo + 2 ^ Z.of_nat k)).
    + apply (IH lo H1). lia.
    + apply (IH _ H2). lia.
Qed.

Lemma every_doe_ok (doe : Z) : 0 <= doe < 146097 -> doe_ok doe = true.
Proof.
  intros Hd.
  assert (H : all_from (fun v => (146097 <=? v) || doe_ok v) 18 0 = true)
    by (vm_compute; reflexivity).
  pose proof (all_from_spec _ 18 0 H doe ltac:(simpl; lia)) as Hv.
  apply orb_prop in Hv as [Hv|Hv]; [apply Z.leb_le in Hv; lia | exact Hv].
Qed.

Lemma printed_in_digits (width : nat) (k : nat) (lo hi v : Z) :
  all_from (fun v => (v <? lo) || (hi <=? v) || digits_ok width v) k 0 = true ->
  0 <= lo -> hi <= 2 ^ Z.of_nat k ->
  lo <= v < hi -> digits_ok width v = true.
Proof.
  intros H Hlo Hhi Hv.
  pose proof (all_from_spec _ k 0 H v ltac:(lia)) as Hc.
  apply orb_prop in Hc as [Hc|Hc]; [|exact Hc].
  apply orb_prop in Hc as [Hc|Hc]; [apply Z.ltb_lt in Hc | apply Z.leb_le in Hc]; lia.
Qed.

Lemma two_digits (v : Z) : 0 <= v < 100 -> digits_ok 2 v = true.
Proof.
  apply (printed_in_digits 2 7 0 100); [vm_compute; reflexivity | lia | simpl; lia].
Qed.

Lemma four_digits (v : Z) : 1000 <= v < 10000 -> digits_ok 4 v = true.
Proof.
  apply (printed_in_digits 4 14 1000 10000);
    [vm_compute; reflexivity | lia | simpl; lia].
Qed.

(** The fields of [gmtime], with the date taken from the day of the era. *)
Lemma gmtime_civil (secs : Z) :
  let z := secs / 86400 + 719468 in
  let era := z / 146097 in
  let doe := z - era * 146097 in
  gmtime secs
  = {| tm_year := era * 400 + fst (fst (civil_of_doe doe));
       tm_mon := snd (fst (civil_of_doe doe));
       tm_mday := snd (civil_of_doe doe);
       tm_hour := (secs mod 86400) / 3600;
       tm_min := ((secs mod 86400) mod 3600) / 60;
       tm_sec := (secs mod 86400) mod 60 |}.
Proof.
  intros z era doe. unfold gmtime, civil_of_doe. cbn [fst snd].
  fold z. fold era. fold doe. f_equal. lia.
Qed.

(** The facts the check of a day establishes. *)
Lemma doe_ok_facts (doe : Z) :
  0 <= doe < 146097 ->
  let y := fst (fst (civil_of_doe doe)) in
  let m := snd (fst (civil_of_doe doe)) in
  let d := snd (civil_of_doe doe) in
  let y' := y - (if m <=? 2 then 1 else 0) in
  0 <= y <= 400 /\ 1 <= m <= 12 /\ 1 <= d <= 31
  /\ (135080 <= doe -> 370 <= y) /\ (doe <= 146036 -> y <= 399)
  /\ 0 <= y' <= 399
  /\ y' * 365 + y' / 4 - y' / 100
     + (153 * (if 2 <? m then m - 3 else m + 9) + 2) / 5 + d - 1 = doe.
Proof.
  intros Hd. pose proof (every_doe_ok doe Hd) as H. unfold doe_ok in H.
  destruct (civil_of_doe doe) as [[y m] d]. cbn [fst snd].
  repeat (apply andb_prop in H as [H ?]).
  repeat match goal with
         | H : (_ || _) = true |- _ => apply orb_prop in H
         | H : (_ <=? _) = true |- _ => apply Z.leb_le in H
         | H : (_ <? _) = true |- _ => apply Z.ltb_lt in H
         | H : (_ =? _) = true |- _ => apply Z.eqb_eq in H
         end.
  repeat match goal with
         | H : _ \/ _ |- _ =>
             destruct H as [H|H];
             [first [apply Z.ltb_lt in H | apply Z.leb_le in H]
             |first [apply Z.ltb_lt in H | apply Z.leb_le in H]]
         end;
    repeat split; try lia.
Qed.

(** The fields [gmtime] gives for an epoch count lead back to it by the
    inverse reckoning. *)
Lemma timegm_gmtime (secs : Z) : timegm (gmtime secs) = secs.
Proof.
  rewrite gmtime_civil. cbv zeta.
  set (z := secs / 86400 + 719468). set (era := z / 146097).
  set (doe := z - era * 146097).
  assert (Hdoe : 0 <= doe < 146097).
  { subst doe era. pose proof (Z.mod_pos_bound z 146097 ltac:(lia)).
    rewrite Z.mod_eq in H by lia. lia. }
  destruct (doe_ok_facts doe Hdoe) as (_ & _ & _ & _ & _ & Hy' & Hback).
  cbv zeta in Hy', Hback.
  unfold timegm. cbn [tm_year tm_mon tm_mday tm_hour tm_min tm_sec].
  set (m := snd (fst (civil_of_doe doe))) in *.
  set (y := fst (fst (civil_of_doe doe))) in *.
  set (d := snd (civil_of_doe doe)) in *.
  set (y' := y - (if m <=? 2 then 1 else 0)) in *.
  replace (era * 400 + y - (if m <=? 2 then 1 else 0)) with (era * 400 + y')
    by (subst y'; lia).
  assert (He : (era * 400 + y') / 400 = era).
  { symmetry. apply (Z.div_unique _ 400 era y'); lia. }
  rewrite He.
  replace (era * 400 + y' - era * 400) with y' by lia.
  pose proof (Z.div_mod secs 86400 ltac:(lia)) as D.
  pose proof (Z.mod_pos_bound secs 86400 ltac:(lia)) as B.
  set (r := secs mod 86400) in *.
  pose proof (Z.div_mod r 3600 ltac:(lia)) as D1.
  pose proof (Z.div_mod (r mod 3600) 60 ltac:(lia)) as D2.
  assert (D3 : r mod 60 = (r mod 3600) mod 60).
  { symmetry. apply Z.mod_mod_divide. exists 60. reflexivity. }
  rewrite D3.
  assert (Hz : era * 146097 + doe - 719468 = secs / 86400) by (subst doe z; lia).
  set (q := secs / 86400) in *.
  set (a := y' / 4) in *. set (b := y' / 100) in *.
  set (t5 := (153 * (if 2 <? m then m - 3 else m + 9) + 2) / 5) in *.
  set (h := r / 3600) in *. set (r1 := r mod 3600) in *.
  set (mi := r1 / 60) in *. set (s := r1 mod 60) in *.
  clearbody q a b t5 h r1 mi s r. lia.
Qed.

(** What [strftime] makes of the format of the hook. *)
Lemma strftime_time_format (tm : struct_time) :
  strftime (list_ascii_of_string "%Y-%m-%d %H:%M:%S UTC") tm
  = zfill 4 (str_int (tm_year tm)) ++ lit "-"
    ++ zfill 2 (str_int (tm_mon tm)) ++ lit "-"
    ++ zfill 2 (str_int (tm_mday tm)) ++ lit " "
    ++ zfill 2 (str_int (tm_hour tm)) ++ lit ":"
    ++ zfill 2 (str_int (tm_min tm)) ++ lit ":"
    ++ zfill 2 (str_int (tm_sec tm)) ++ lit " UTC".
Proof. reflexivity. Qed.

Lemma shaped_digits (width : nat) (v : Z) (pattern : list ascii) (t : str) :
  digits_ok width v = true ->
  shaped (repeat "d"%char width ++ pattern) (zfill width (str_int v) ++ t)
  = shaped pattern t.
Proof.
  unfold digits_ok. intros H. apply andb_prop in H as [Hlen Hdig].
  apply Nat.eqb_eq in Hlen. revert Hlen Hdig.
  generalize (zfill width (str_int v)) as s. clear v.
  induction width as [|n IH]; intros [|c s] Hlen Hdig; try discriminate.
  - reflexivity.
  - simpl in Hlen, Hdig |- *. apply andb_prop in Hdig as [Hc Hs].
    rewrite Hc. apply IH; [lia | exact Hs].
Qed.

Lemma shaped_char (a : ascii) (pattern : list ascii) (t : str) :
  a <> "d"%char ->
  shaped (a :: pattern) (N_of_ascii a :: t) = shaped pattern t.
Proof.
  intros Ha. cbn [shaped].
  destruct (Ascii.eqb a "d") eqn:E; [now apply Ascii.eqb_eq in E|].
  now rewrite N.eqb_refl.
Qed.

(** The fields of [gmtime] for an epoch from 1970 to the end of the year
    9999: a date of the calendar and a time of day. *)
Lemma gmtime_fields (secs : Z) :
  0 <= secs < 253402300800 ->
  1970 <= tm_year (gmtime secs) <= 9999
  /\ 1 <= tm_mon (gmtime secs) <= 12
  /\ 1 <= tm_mday (gmtime secs) <= 31
  /\ 0 <= tm_hour (gmtime secs) < 24
  /\ 0 <= tm_min (gmtime secs) < 60
  /\ 0 <= tm_sec (gmtime secs) < 60.
Proof.
  intros Hs. rewrite gmtime_civil. cbv zeta.
  cbn [tm_year tm_mon tm_mday tm_hour tm_min tm_sec].
  set (z := secs / 86400 + 719468). set (era := z / 146097).
  set (doe := z - era * 146097).
  pose proof (Z.div_mod secs 86400 ltac:(lia)) as D.
  pose proof (Z.mod_pos_bound secs 86400 ltac:(lia)) as B.
  pose proof (Z.div_mod z 146097 ltac:(lia)) as Dz.
  pose proof (Z.mod_pos_bound z 146097 ltac:(lia)) as Bz.
  fold era in Dz.
  assert (Hdoe : 0 <= doe < 146097) by (subst doe; lia).
  destruct (doe_ok_facts doe Hdoe) as (Hy & Hm & Hd & Hlo & Hhi & _ & _).
  cbv zeta in Hy, Hm, Hd, Hlo, Hhi.
  set (r := secs mod 86400) in *.
  pose proof (Z.div_mod r 3600 ltac:(lia)) as D1.
  pose proof (Z.mod_pos_bound r 3600 ltac:(lia)) as B1.
  pose proof (Z.div_mod (r mod 3600) 60 ltac:(lia)) as D2.
  pose proof (Z.mod_pos_bound (r mod 3600) 60 ltac:(lia)) as B2.
  pose proof (Z.mod_pos_bound r 60 ltac:(lia)) as B3.
  set (q := secs / 86400) in *. subst z.
  set (y := fst (fst (civil_of_doe doe))) in *.
  set (h := r / 3600) in *. set (r1 := r mod 3600) in *.
  set (mi := r1 / 60) in *. set (s := r mod 60) in *.
  set (zm := (q + 719468) mod 146097) in *.
  clearbody q y h r1 mi s r zm.
  assert (He : 4 <= era <= 24) by (subst doe; clearbody era; lia).
  subst doe. clearbody era.
  repeat split; try lia.
Qed.

(** For every epoch from 1970 to the end of the year 9999 the date in the
    first log line has the form [YYYY-MM-DD HH:MM:SS UTC], every field in
    digits and of fixed width, and the fields are a date of the calendar and
    a time of day. *)
Theorem first_line_date_format (secs : Z) :
  0 <= secs < 253402300800 ->
  (setting_line secs
   = LF ++ lit "[RTC] Setting to system time: " ++ strftime time_format (gmtime secs)
   /\ shaped date_pattern (strftime time_format (gmtime secs)) = true)
  /\ 1970 <= tm_year (gmtime secs) <= 9999
  /\ 1 <= tm_mon (gmtime secs) <= 12
  /\ 1 <= tm_mday (gmtime secs) <= 31
  /\ 0 <= tm_hour (gmtime secs) < 24
  /\ 0 <= tm_min (gmtime secs) < 60
  /\ 0 <= tm_sec (gmtime secs) < 60.
Proof.
  intros Hs. pose proof (gmtime_fields secs Hs) as Hfields.
  split; [split; [reflexivity|]|exact Hfields].
  destruct Hfields as (Hy & Hm & Hd & Hh & Hmi & Hsec).
  unfold date_pattern, time_format. rewrite strftime_time_format.
  change (list_ascii_of_string "dddd-dd-dd dd:dd:dd UTC")
    with (repeat "d"%char 4 ++ "-"%char
          :: repeat "d"%char 2 ++ "-"%char
          :: repeat "d"%char 2 ++ " "%char
          :: repeat "d"%char 2 ++ ":"%char
          :: repeat "d"%char 2 ++ ":"%char
          :: repeat "d"%char 2 ++ list_ascii_of_string " UTC").
  cbn [lit map list_ascii_of_string app].
  rewrite (shaped_digits 4) by (apply four_digits; lia).
  rewrite shaped_char by discriminate.
  rewrite (shaped_digits 2) by (apply two_digits; lia).
  rewrite shaped_char by discriminate.
  rewrite (shaped_digits 2) by (apply two_digits; lia).
  rewrite shaped_char by discriminate.
  rewrite (shaped_digits 2) by (apply two_digits; lia).
  rewrite shaped_char by discriminate.
  rewrite (shaped_digits 2) by (apply two_digits; lia).
  rewrite shaped_char by discriminate.
  rewrite (shaped_digits 2) by (apply two_digits; lia).
  reflexivity.
Qed.

Lemma first_line_date_format_witness :
  0 <= 1700000000 < 253402300800
  /\ strftime time_format (gmtime 1700000000) = lit "2023-11-14 22:13:20 UTC"
  /\ shaped date_pattern (strftime time_format (gmtime 1700000000)) = true
  /\ tm_year (gmtime 1700000000) = 2023.
Proof.
  split; [lia|]. split; [vm_compute; reflexivity|].
  split; [|vm_compute; reflexivity].
  exact (proj2 (proj1 (first_line_date_format 1700000000 ltac:(lia)))).
Defined.

(** ** The first log line determines the epoch *)

Lemma checked_between (f : Z -> bool) (k : nat) (lo hi v : Z) :
  all_from (fun v => (v <? lo) || (hi <=? v) || f v) k 0 = true ->
  0 <= lo -> hi <= 2 ^ Z.of_nat k ->
  lo <= v < hi -> f v = true.
Proof.
  intros H Hlo Hhi Hv.
  pose proof (all_from_spec _ k 0 H v ltac:(lia)) as Hc.
  apply orb_prop in Hc as [Hc|Hc]; [|exact Hc].
  apply orb_prop in Hc as [Hc|Hc]; [apply Z.ltb_lt in Hc | apply Z.leb_le in Hc]; lia.
Qed.

Lemma two_digits_read_back (v : Z) : 0 <= v < 100 -> reads_back 2 v = true.
Proof.
  apply (checked_between (reads_back 2) 7 0 100);
    [vm_compute; reflexivity | lia | simpl; lia].
Qed.

Lemma four_digits_read_back (v : Z) : 1000 <= v < 10000 -> reads_back 4 v = true.
Proof.
  apply (checked_between (reads_back 4) 14 1000 10000);
    [vm_compute; reflexivity | lia | simpl; lia].
Qed.

(** Two texts that begin with a number printed in the same width agree only
    if the numbers do, and what follows them. *)
Lemma field_inj (width : nat) (a b : Z) (s t : str) :
  digits_ok width a = true -> digits_ok width b = true ->
  reads_back width a = true -> reads_back width b = true ->
  zfill width (str_int a) ++ s = zfill width (str_int b) ++ t ->
  a = b /\ s = t.
Proof.
  unfold digits_ok, reads_back. intros Ha Hb Ra Rb H.
  apply andb_prop in Ha as [La _]. apply andb_prop in Hb as [Lb _].
  apply Nat.eqb_eq in La, Lb. apply Z.eqb_eq in Ra, Rb.
  apply app_inj_1 in H as [H1 H2]; [|congruence].
  split; [|exact H2]. rewrite <- Ra, <- Rb, H1. reflexivity.
Qed.

(** From 1970 to the end of the year 9999 the first log line determines the
    epoch: two different epochs never print the same line, so the date
    [strftime] makes of [gmtime]'s fields identifies the second captured. *)
Theorem distinct_epochs_distinct_lines (a b : Z) :
  0 <= a < 253402300800 -> 0 <= b < 253402300800 ->
  a <> b -> setting_line a <> setting_line b.
Proof.
  intros Ha Hb Hab H. apply Hab.
  destruct (gmtime_fields a Ha) as (Hy1 & Hm1 & Hd1 & Hh1 & Hi1 & Hs1).
  destruct (gmtime_fields b Hb) as (Hy2 & Hm2 & Hd2 & Hh2 & Hi2 & Hs2).
  unfold setting_line in H. do 2 apply app_inv_head in H.
  unfold time_format in H. rewrite !strftime_time_format in H.
  apply field_inj in H as [Ey H];
    [|apply four_digits; lia | apply four_digits; lia
     |apply four_digits_read_back; lia | apply four_digits_read_back; lia].
  apply app_inv_head in H.
  apply field_inj in H as [Em H];
    [|apply two_digits; lia | apply two_digits; lia
     |apply two_digits_read_back; lia | apply two_digits_read_back; lia].
  apply app_inv_head in H.
  apply field_inj in H as [Ed H];
    [|apply two_digits; lia | apply two_digits; lia
     |apply two_digits_read_back; lia | apply two_digits_read_back; lia].
  apply app_inv_head in H.
  apply field_inj in H as [Eh H];
    [|apply two_digits; lia | apply two_digits; lia
     |apply two_digits_read_back; lia | apply two_digits_read_back; lia].
  apply app_inv_head in H.
  apply field_inj in H as [Ei H];
    [|apply two_digits; lia | apply two_digits; lia
     |apply two_digits_read_back; lia | apply two_digits_read_back; lia].
  apply app_inv_head in H.
  apply field_inj in H as [Es _];
    [|apply two_digits; lia | apply two_digits; lia
     |apply two_digits_read_back; lia | apply two_digits_read_back; lia].
  assert (E : gmtime a = gmtime b).
  { destruct (gmtime a), (gmtime b). cbn in *. congruence. }
  rewrite <- (timegm_gmtime a), <- (timegm_gmtime b), E. reflexivity.
Qed.

Lemma distinct_epochs_distinct_lines_witness :
  0 <= 1700000000 < 253402300800
  /\ 0 <= 1700000001 < 253402300800
  /\ 1700000000 <> 1700000001
  /\ setting_line 1700000000 <> setting_line 1700000001.
Proof.
  split; [lia|]. split; [lia|]. split; [lia|].
  apply (distinct_epochs_distinct_lines 1700000000 1700000001); lia.
Defined.
